(** * CORS middleware (package cors, cors.go): policy matchers and
      response-header composition.

    The development follows cors.go function by function.  Go strings are
    byte strings and are modelled by [string]; [http.Header] is a finite
    map from header names to value lists; the effects of a handler on its
    [http.ResponseWriter] (calls to [Header().Set], delegation to the wrapped
    handler) are recorded in program order. *)

From Stdlib Require Import ZArith Ascii String DecimalString DecimalZ DecimalPos List Bool Lia.
From stdpp Require Import base strings list gmap fin_maps.

Local Open Scope string_scope.

(** ** Go library functions used by cors.go *)

(** [c < utf8.RuneSelf]: the byte is a one-byte (ASCII) rune. *)
Definition isASCIIByte (c : ascii) : bool := (nat_of_ascii c <? 128)%nat.

(** The scan that opens [strings.ToLower] and [strings.ToUpper]: no byte of
    [s] is [utf8.RuneSelf] or above. *)
Fixpoint isASCII (s : string) : bool :=
  match s with
  | EmptyString => true
  | String c s' => isASCIIByte c && isASCII s'
  end.

(** ['a' <= c && c <= 'z'] and ['A' <= c && c <= 'Z'] on bytes. *)
Definition isLowerByte (c : ascii) : bool :=
  ((97 <=? nat_of_ascii c) && (nat_of_ascii c <=? 122))%nat.

Definition isUpperByte (c : ascii) : bool :=
  ((65 <=? nat_of_ascii c) && (nat_of_ascii c <=? 90))%nat.

(** [c -= 'a' - 'A'] and [c += 'a' - 'A']. *)
Definition upperByte (c : ascii) : ascii :=
  if isLowerByte c then ascii_of_nat (nat_of_ascii c - 32) else c.

Definition lowerByte (c : ascii) : ascii :=
  if isUpperByte c then ascii_of_nat (nat_of_ascii c + 32) else c.

(** The byte loop of the ASCII path: [f] applied to every byte. *)
Fixpoint mapBytes (f : ascii -> ascii) (s : string) : string :=
  match s with
  | EmptyString => EmptyString
  | String c s' => String (f c) (mapBytes f s')
  end.

(** [strings.Join(elems, sep)]. *)
Definition Join (elems : list string) (sep : string) : string :=
  String.concat sep elems.

(** [strconv.Itoa(i)]: the base-10 representation of [i]. *)
Definition Itoa (i : Z) : string := NilZero.string_of_int (Z.to_int i).

(** [http.Header]: header name to the list of its values.  Every key that
    cors.go passes to [Get] and [Set] is a constant already in canonical
    form, so the canonicalisation of the key done by net/http is the
    identity on them. *)
Abbreviation http_Header := (gmap string (list string)).

(** [h.Get(key)]: the first value stored under [key], [""] when there is
    none. *)
Definition Header_Get (h : http_Header) (key : string) : string :=
  match h !! key with
  | Some (v :: _) => v
  | _ => ""
  end.

(** [h.Set(key, value)]: replaces whatever is stored under [key]. *)
Definition Header_Set (h : http_Header) (key value : string) : http_Header :=
  <[key := [value]]> h.

(** ** Data model *)

(** [type Options struct].  [MaxAge] is a Go [int]; every machine integer
    is a [Z]. *)
Record Options : Type := mkOptions {
  AllowedOrigins : list string;
  AllowedMethods : list string;
  AllowedHeaders : list string;
  ExposedHeaders : list string;
  AllowCredentials : bool;
  MaxAge : Z
}.

(** [type Cors struct]. *)
Record Cors : Type := mkCors { options : Options }.

(** The part of [*http.Request] that cors.go reads. *)
Record Request : Type := mkRequest {
  Method : string;
  Header : http_Header
}.

(** What a handler does to its [http.ResponseWriter], in program order:
    [w.Header().Set(key, value)], and the call of the wrapped handler
    ([h.ServeHTTP(w, r)] or [next(w, r)]). *)
Inductive Effect : Type :=
| HeaderSet (key value : string)
| ServeNext.

(** A handler body is the sequence of its effects: [skip] for a [return]
    that has done nothing, [headers_Set] for [headers.Set(key, value)],
    [when b p] for [if b { p }], and [p ;; q] for [p] followed by [q]. *)
Definition Prog : Type := list Effect.

Definition skip : Prog := [].

Definition headers_Set (key value : string) : Prog := [HeaderSet key value].

Definition when (b : bool) (p : Prog) : Prog := if b then p else skip.

Declare Scope prog_scope.
Delimit Scope prog_scope with prog.
Notation "p ;; q" := (app (p : Prog) (q : Prog)) (at level 100, right associativity) : prog_scope.

(** Running a recorded program against the header map of the response
    writer; [next] is what the wrapped handler does to that map. *)
Definition step (next : http_Header -> http_Header) (w : http_Header)
    (e : Effect) : http_Header :=
  match e with
  | HeaderSet key value => Header_Set w key value
  | ServeNext => next w
  end.

Definition run (next : http_Header -> http_Header) (p : Prog)
    (w : http_Header) : http_Header :=
  fold_left (step next) p w.

(** [writes p key]: the program sets the header [key]. *)
Definition writes (p : Prog) (key : string) : Prop :=
  exists value, HeaderSet key value ∈ p.

(** ** utils.go *)

(** Modelled from the spec: [convert] is defined in a file that is not among
    the sources; construction "lowercases every allowed origin, uppercases
    every allowed method", that is, applies the converter to every element
    in order. *)
Definition convert (s : list string) (c : string -> string) : list string :=
  map c s.

Module Utils.

(** Modelled from the spec: the "canonical capitalization" of header names
    ("content-type" becomes "Content-Type", "x-foo" becomes "X-Foo"), which
    [toHeader] applies: the first letter and every letter after a hyphen in
    upper case, the others in lower case.  [upper] tells whether the next
    letter starts a word. *)
Fixpoint canonical (upper : bool) (s : string) : string :=
  match s with
  | EmptyString => EmptyString
  | String c s' =>
      String (if upper then upperByte c else lowerByte c)
             (canonical (Ascii.eqb c "-") s')
  end.

(** Modelled from the spec: [toHeader] is defined in a file that is not among
    the sources; it turns a header name into its canonical capitalization. *)
Definition toHeader (name : string) : string := canonical true name.

(** Modelled from the spec: the "surrounding whitespace" that
    [parseHeaderList] trims from a token: space, tab, line feed, carriage
    return. *)
Definition isSpace (c : ascii) : bool :=
  Ascii.eqb c " " || Ascii.eqb c "009" || Ascii.eqb c "010" || Ascii.eqb c "013".

(** Modelled from the spec: "trim surrounding whitespace from each token",
    on the left, on the right, and on both sides. *)
Fixpoint trimLeft (s : string) : string :=
  match s with
  | EmptyString => EmptyString
  | String c s' => if isSpace c then trimLeft s' else s
  end.

Fixpoint trimRight (s : string) : string :=
  match s with
  | EmptyString => EmptyString
  | String c s' =>
      let t := trimRight s' in
      if isSpace c && (t =? "") then EmptyString else String c t
  end.

Definition TrimSpace (s : string) : string := trimRight (trimLeft s).

(** Modelled from the spec: the "split on commas" of [parseHeaderList]; a
    string with n commas has n + 1 tokens. *)
Fixpoint splitCommas (s : string) : list string :=
  match s with
  | EmptyString => [EmptyString]
  | String c s' =>
      if Ascii.eqb c "," then EmptyString :: splitCommas s'
      else match splitCommas s' with
           | t :: ts => String c t :: ts
           | [] => [String c EmptyString]
           end
  end.

(** Modelled from the spec: [parseHeaderList] is defined in a file that is
    not among the sources; "split on commas, trim surrounding whitespace
    from each token; empty tokens produced by malformed input (e.g.
    trailing comma) are preserved as empty strings".  A request that sends
    no [Access-Control-Request-Headers] yields the empty sequence. *)
Definition parseHeaderList (headerList : string) : list string :=
  if headerList =? "" then [] else map TrimSpace (splitCommas headerList).

End Utils.

(** ** Sample policies and requests *)

Module Scenario.

(** A policy as [New] stores it for
    [Options{AllowedOrigins: {"foo.com"}, AllowedMethods: {"GET", "POST"},
    AllowedHeaders: {"x-custom", "content-type"}, ExposedHeaders:
    {"x-total"}, AllowCredentials: true, MaxAge: 600}]. *)
Definition fooPolicy : Cors :=
  {| options :=
       {| AllowedOrigins := ["foo.com"];
          AllowedMethods := ["GET"; "POST"];
          AllowedHeaders := ["X-Custom"; "Content-Type"; "Origin"];
          ExposedHeaders := ["X-Total"];
          AllowCredentials := true;
          MaxAge := 600 |} |}.

(** The raw options of [fooPolicy]. *)
Definition fooOptions : Options :=
  {| AllowedOrigins := ["Foo.com"];
     AllowedMethods := ["get"; "post"];
     AllowedHeaders := ["x-custom"; "content-type"];
     ExposedHeaders := ["x-total"];
     AllowCredentials := true;
     MaxAge := 600 |}.

(** The policy of [Default()]: any origin, GET and POST. *)
Definition defaultPolicy : Cors :=
  {| options :=
       {| AllowedOrigins := ["*"];
          AllowedMethods := ["GET"; "POST"];
          AllowedHeaders := ["Origin"];
          ExposedHeaders := [];
          AllowCredentials := false;
          MaxAge := 0 |} |}.

Definition request (method : string) (headers : list (string * string)) : Request :=
  {| Method := method;
     Header := list_to_map (map (fun kv => (kv.1, [kv.2])) headers) |}.

(** A preflight for a POST with two custom headers. *)
Definition preflight : Request :=
  request "OPTIONS"
    [("Origin", "foo.com");
     ("Access-Control-Request-Method", "post");
     ("Access-Control-Request-Headers", "X-Custom, Content-Type")].

(** A preflight from an origin outside the list. *)
Definition preflightBar : Request :=
  request "OPTIONS"
    [("Origin", "bar.com"); ("Access-Control-Request-Method", "POST")].

(** A simple cross-origin GET, and a DELETE. *)
Definition get : Request := request "GET" [("Origin", "Foo.com")].

Definition delete : Request := request "DELETE" [("Origin", "foo.com")].

End Scenario.

Section Cors.

Set Default Proof Using "Type".

(** [strings.Map(unicode.ToLower, s)] and [strings.Map(unicode.ToUpper, s)],
    the path taken by [strings.ToLower] and [strings.ToUpper] on strings
    with a byte outside ASCII; they depend on the Unicode case tables. *)
Variables unicodeToLower unicodeToUpper : string -> string.

(** [toHeader] and [parseHeaderList] are defined next to [convert]; what
    follows holds for every canonicaliser and every tokenizer. *)
Variable toHeader : string -> string.
Variable parseHeaderList : string -> list string.

(** [strings.ToLower(s)] and [strings.ToUpper(s)]. *)
Definition ToLower (s : string) : string :=
  if isASCII s then mapBytes lowerByte s else unicodeToLower s.

Definition ToUpper (s : string) : string :=
  if isASCII s then mapBytes upperByte s else unicodeToUpper s.

(** [func New(options Options) *Cors]. *)
Definition New (options : Options) : Cors :=
  let normOptions := {|
    AllowedOrigins := convert options.(AllowedOrigins) ToLower;
    AllowedMethods := convert options.(AllowedMethods) ToUpper;
    AllowedHeaders := convert (options.(AllowedHeaders) ++ ["Origin"]) toHeader;
    ExposedHeaders := convert options.(ExposedHeaders) toHeader;
    AllowCredentials := options.(AllowCredentials);
    MaxAge := options.(MaxAge)
  |} in
  let normOptions :=
    if (length normOptions.(AllowedOrigins) =? 0)%nat
    then {| AllowedOrigins := ["*"];
            AllowedMethods := normOptions.(AllowedMethods);
            AllowedHeaders := normOptions.(AllowedHeaders);
            ExposedHeaders := normOptions.(ExposedHeaders);
            AllowCredentials := normOptions.(AllowCredentials);
            MaxAge := normOptions.(MaxAge) |}
    else normOptions in
  let normOptions :=
    if (length normOptions.(AllowedMethods) =? 0)%nat
    then {| AllowedOrigins := normOptions.(AllowedOrigins);
            AllowedMethods := ["GET"; "POST"];
            AllowedHeaders := normOptions.(AllowedHeaders);
            ExposedHeaders := normOptions.(ExposedHeaders);
            AllowCredentials := normOptions.(AllowCredentials);
            MaxAge := normOptions.(MaxAge) |}
    else normOptions in
  {| options := normOptions |}.

(** [func Default() *Cors]. *)
Definition Default : Cors :=
  New {| AllowedOrigins := []; AllowedMethods := []; AllowedHeaders := [];
         ExposedHeaders := []; AllowCredentials := false; MaxAge := 0 |}.

(** The [range] loop of [isOriginAllowed]; [origin] is already
    lowercased. *)
Fixpoint isOriginAllowed_loop (origin : string) (allowedOrigins : list string) : bool :=
  match allowedOrigins with
  | [] => false
  | allowedOrigin :: rest =>
      if allowedOrigin =? "*" then true
      else if allowedOrigin =? origin then true
      else isOriginAllowed_loop origin rest
  end.

(** [func (cors *Cors) isOriginAllowed(origin string) bool]. *)
Definition isOriginAllowed (cors : Cors) (origin : string) : bool :=
  let allowedOrigins := cors.(options).(AllowedOrigins) in
  let origin := ToLower origin in
  isOriginAllowed_loop origin allowedOrigins.

(** The [range] loop of [isMethodAllowed]. *)
Fixpoint isMethodAllowed_loop (method : string) (allowedMethods : list string) : bool :=
  match allowedMethods with
  | [] => false
  | allowedMethod :: rest =>
      if allowedMethod =? method then true
      else isMethodAllowed_loop method rest
  end.

(** [func (cors *Cors) isMethodAllowed(method string) bool]. *)
Definition isMethodAllowed (cors : Cors) (method : string) : bool :=
  let allowedMethods := cors.(options).(AllowedMethods) in
  if (length allowedMethods =? 0)%nat then false
  else
    let method := ToUpper method in
    if method =? "OPTIONS" then true
    else isMethodAllowed_loop method allowedMethods.

(** The inner loop of [areHeadersAllowed]: the final value of [found]. *)
Fixpoint areHeadersAllowed_found (header : string) (allowedHeaders : list string) : bool :=
  match allowedHeaders with
  | [] => false
  | allowedHeader :: rest =>
      if header =? allowedHeader then true
      else areHeadersAllowed_found header rest
  end.

(** The outer loop of [areHeadersAllowed]. *)
Fixpoint areHeadersAllowed_loop (cors : Cors) (requestedHeaders : list string) : bool :=
  match requestedHeaders with
  | [] => true
  | header :: rest =>
      let found := areHeadersAllowed_found header cors.(options).(AllowedHeaders) in
      if negb found then false
      else areHeadersAllowed_loop cors rest
  end.

(** [func (cors *Cors) areHeadersAllowed(requestedHeaders []string) bool]. *)
Definition areHeadersAllowed (cors : Cors) (requestedHeaders : list string) : bool :=
  if (length requestedHeaders =? 0)%nat then true
  else areHeadersAllowed_loop cors requestedHeaders.

Local Open Scope prog_scope.

(** [func (cors *Cors) handlePreflight(w, r)]. *)
Definition handlePreflight (cors : Cors) (r : Request) : Prog :=
  let options := cors.(options) in
  let origin := Header_Get r.(Header) "Origin" in
  if negb (r.(Method) =? "OPTIONS") || (origin =? "") || negb (isOriginAllowed cors origin)
  then skip
  else
    let reqMethod := Header_Get r.(Header) "Access-Control-Request-Method" in
    if negb (isMethodAllowed cors reqMethod) then skip
    else
      let reqHeaders :=
        parseHeaderList (Header_Get r.(Header) "Access-Control-Request-Headers") in
      if negb (areHeadersAllowed cors reqHeaders) then skip
      else
        headers_Set "Access-Control-Allow-Origin" origin ;;
        headers_Set "Access-Control-Allow-Methods" (ToUpper reqMethod) ;;
        when (0 <? length reqHeaders)%nat
          (headers_Set "Access-Control-Allow-Headers" (Join reqHeaders ", ")) ;;
        when options.(AllowCredentials)
          (headers_Set "Access-Control-Allow-Credentials" "true") ;;
        when (0 <? options.(MaxAge))%Z
          (headers_Set "Access-Control-Max-Age" (Itoa options.(MaxAge))).

(** [func (cors *Cors) handleActualRequest(w, r)]. *)
Definition handleActualRequest (cors : Cors) (r : Request) : Prog :=
  let options := cors.(options) in
  let origin := Header_Get r.(Header) "Origin" in
  if (r.(Method) =? "OPTIONS") || (origin =? "") || negb (isOriginAllowed cors origin)
  then skip
  else
    if negb (isMethodAllowed cors r.(Method)) then skip
    else
      headers_Set "Access-Control-Allow-Origin" origin ;;
      when (0 <? length options.(ExposedHeaders))%nat
        (headers_Set "Access-Control-Expose-Headers" (Join options.(ExposedHeaders) ", ")) ;;
      when options.(AllowCredentials)
        (headers_Set "Access-Control-Allow-Credentials" "true").

(** [func (cors *Cors) Handler(h http.Handler) http.Handler]: the body of
    the returned handler; the call [h.ServeHTTP(w, r)] is [ServeNext]. *)
Definition Handler (cors : Cors) (r : Request) : Prog :=
  if r.(Method) =? "OPTIONS" then handlePreflight cors r
  else handleActualRequest cors r ;; [ServeNext].

(** [func (cors *Cors) HandlerFunc(w, r)]. *)
Definition HandlerFunc (cors : Cors) (r : Request) : Prog :=
  if r.(Method) =? "OPTIONS" then handlePreflight cors r
  else handleActualRequest cors r.

(** [func (cors *Cors) ServeHTTP(w, r, next)]: the call [next(w, r)] is
    [ServeNext]. *)
Definition ServeHTTP (cors : Cors) (r : Request) : Prog :=
  if r.(Method) =? "OPTIONS" then handlePreflight cors r
  else handleActualRequest cors r ;; [ServeNext].

(** ** The responses prescribed for a request that passes the checks *)

(** The three request headers read by the composers. *)
Definition originOf (r : Request) : string := Header_Get r.(Header) "Origin".

Definition reqMethodOf (r : Request) : string :=
  Header_Get r.(Header) "Access-Control-Request-Method".

Definition reqHeadersOf (r : Request) : list string :=
  parseHeaderList (Header_Get r.(Header) "Access-Control-Request-Headers").

(** The origin condition of the specification: a non-empty origin that the
    allow-list admits through the wildcard or verbatim once lowercased. *)
Definition originAdmitted (cors : Cors) (origin : string) : Prop :=
  origin <> "" /\
  ("*" ∈ cors.(options).(AllowedOrigins) \/
   ToLower origin ∈ cors.(options).(AllowedOrigins)).

(** The checks of the preflight path and of the actual-request path. *)
Definition preflightPasses (cors : Cors) (r : Request) : Prop :=
  r.(Method) = "OPTIONS" /\ originOf r <> "" /\
  isOriginAllowed cors (originOf r) = true /\
  isMethodAllowed cors (reqMethodOf r) = true /\
  areHeadersAllowed cors (reqHeadersOf r) = true.

Definition actualPasses (cors : Cors) (r : Request) : Prop :=
  r.(Method) <> "OPTIONS" /\ originOf r <> "" /\
  isOriginAllowed cors (originOf r) = true /\
  isMethodAllowed cors r.(Method) = true.

(** The header writes of a successful preflight, in the order of the
    specification. *)
Definition preflightResponse (cors : Cors) (r : Request) : Prog :=
  ([HeaderSet "Access-Control-Allow-Origin" (originOf r);
   HeaderSet "Access-Control-Allow-Methods" (ToUpper (reqMethodOf r))]
  ++ (if decide (reqHeadersOf r = []) then []
      else [HeaderSet "Access-Control-Allow-Headers" (Join (reqHeadersOf r) ", ")])
  ++ (if cors.(options).(AllowCredentials)
      then [HeaderSet "Access-Control-Allow-Credentials" "true"] else [])
  ++ (if decide (0 < cors.(options).(MaxAge))%Z
      then [HeaderSet "Access-Control-Max-Age" (Itoa cors.(options).(MaxAge))]
      else []))%list.

(** The header writes of a successful actual request. *)
Definition actualResponse (cors : Cors) (r : Request) : Prog :=
  ([HeaderSet "Access-Control-Allow-Origin" (originOf r)]
  ++ (if decide (cors.(options).(ExposedHeaders) = []) then []
      else [HeaderSet "Access-Control-Expose-Headers"
              (Join cors.(options).(ExposedHeaders) ", ")])
  ++ (if cors.(options).(AllowCredentials)
      then [HeaderSet "Access-Control-Allow-Credentials" "true"] else []))%list.

(** The response headers that the component can write besides
    [Access-Control-Allow-Origin]. *)
Definition conditionalHeaders : list string :=
  ["Access-Control-Allow-Methods"; "Access-Control-Allow-Headers";
   "Access-Control-Allow-Credentials"; "Access-Control-Max-Age";
   "Access-Control-Expose-Headers"].

(** All six response headers that the component can write. *)
Definition corsHeaders : list string :=
  "Access-Control-Allow-Origin" :: conditionalHeaders.

(** The header names that a program sets, in program order. *)
Fixpoint keys (p : Prog) : list string :=
  match p with
  | [] => []
  | HeaderSet key _ :: q => key :: keys q
  | ServeNext :: q => keys q
  end.

(** The value of the last [Set] of [key] in a program, if there is one. *)
Fixpoint lastWrite (key : string) (p : Prog) : option string :=
  match p with
  | [] => None
  | e :: q =>
      match lastWrite key q with
      | Some value => Some value
      | None =>
          match e with
          | HeaderSet k value => if k =? key then Some value else None
          | ServeNext => None
          end
      end
  end.

(** Reading a decimal numeral back, as a client does with the value of
    [Access-Control-Max-Age]. *)
Definition readDecimal (s : string) : option Z :=
  option_map Z.of_int (NilZero.int_of_string s).

(** ** The library functions *)

(** [Itoa] writes a decimal numeral that reads back as the integer. *)
Lemma Itoa_decimal (i : Z) :
  option_map Z.of_int (NilZero.int_of_string (Itoa i)) = Some i.
Proof.
  unfold Itoa. rewrite NilZero.isi.
  - simpl. f_equal. apply DecimalZ.of_to.
  - destruct i; simpl; try discriminate.
    intros Heq. injection Heq. apply Unsigned.to_uint_nonnil.
  - destruct i; simpl; try discriminate.
    intros Heq. injection Heq. apply Unsigned.to_uint_nonnil.
Qed.

(** "OPTIONS" is plain ASCII and already in upper case. *)
Lemma ToUpper_OPTIONS : ToUpper "OPTIONS" = "OPTIONS".
Proof. reflexivity. Qed.

(** ** The matchers *)

(** Forget the functions of the environment that the goal does not mention,
    so that a solver cannot pick them up. *)
Ltac prune :=
  repeat match goal with
         | f : string -> string |- _ => clear f
         | f : string -> list string |- _ => clear f
         end.

Lemma isOriginAllowed_loop_true (origin : string) (allowedOrigins : list string) :
  isOriginAllowed_loop origin allowedOrigins = true <->
  "*" ∈ allowedOrigins \/ origin ∈ allowedOrigins.
Proof.
  induction allowedOrigins as [|a rest IH]; simpl.
  - split; [discriminate | intros [H | H]; inversion H].
  - destruct (String.eqb_spec a "*") as [-> | Hstar].
    + split; [intros _; left; left | reflexivity].
    + destruct (String.eqb_spec a origin) as [-> | Hne].
      * split; [intros _; right; left | reflexivity].
      * rewrite IH, !elem_of_cons. split.
        -- intros [H | H]; [left | right]; right; exact H.
        -- intros [[H | H] | [H | H]]; try congruence; [left | right]; exact H.
Qed.

Lemma isMethodAllowed_loop_true (method : string) (allowedMethods : list string) :
  isMethodAllowed_loop method allowedMethods = true <-> method ∈ allowedMethods.
Proof.
  induction allowedMethods as [|a rest IH]; simpl.
  - split; [discriminate | intros H; inversion H].
  - rewrite elem_of_cons. destruct (String.eqb_spec a method) as [-> | Hne].
    + split; [intros _; left | ]; reflexivity.
    + rewrite IH. split; [intros H; right; exact H | intros [H | H]; congruence].
Qed.

Lemma areHeadersAllowed_found_true (header : string) (allowedHeaders : list string) :
  areHeadersAllowed_found header allowedHeaders = true <-> header ∈ allowedHeaders.
Proof.
  induction allowedHeaders as [|a rest IH]; simpl.
  - split; [discriminate | intros H; inversion H].
  - rewrite elem_of_cons. destruct (String.eqb_spec header a) as [-> | Hne].
    + split; [intros _; left | ]; reflexivity.
    + rewrite IH. split; [intros H; right; exact H | intros [H | H]; congruence].
Qed.

Lemma areHeadersAllowed_loop_true (cors : Cors) (requestedHeaders : list string) :
  areHeadersAllowed_loop cors requestedHeaders = true <->
  Forall (fun header => header ∈ cors.(options).(AllowedHeaders)) requestedHeaders.
Proof.
  induction requestedHeaders as [|h rest IH]; simpl.
  - split; [intros _; constructor | reflexivity].
  - rewrite Forall_cons, <- IH, <- areHeadersAllowed_found_true.
    destruct (areHeadersAllowed_found h _); simpl; prune; intuition congruence.
Qed.

Lemma length_eqb_0 {A : Type} (l : list A) :
  (length l =? 0)%nat = true <-> l = [].
Proof. destruct l; simpl; split; congruence. Qed.

(** ** The composers *)

Lemma when_length {A : Type} (l : list A) (p : Prog) :
  when (0 <? length l)%nat p = if decide (l = []) then [] else p.
Proof. destruct l; reflexivity. Qed.

Lemma when_pos (z : Z) (p : Prog) :
  when (0 <? z)%Z p = if decide (0 < z)%Z then p else [].
Proof.
  unfold when, skip. case_decide as Hz.
  - apply Z.ltb_lt in Hz. rewrite Hz. reflexivity.
  - apply Z.ltb_nlt in Hz. rewrite Hz. reflexivity.
Qed.

Lemma preflightPasses_dec (cors : Cors) (r : Request) :
  Decision (preflightPasses cors r).
Proof. unfold preflightPasses. apply _. Qed.

Lemma actualPasses_dec (cors : Cors) (r : Request) :
  Decision (actualPasses cors r).
Proof. unfold actualPasses. apply _. Qed.

Lemma handlePreflight_pass (cors : Cors) (r : Request) :
  preflightPasses cors r -> handlePreflight cors r = preflightResponse cors r.
Proof.
  intros (Hm & Ho & Hor & Hme & Hh).
  unfold handlePreflight, preflightResponse.
  fold (originOf r) (reqMethodOf r) (reqHeadersOf r).
  apply String.eqb_neq in Ho.
  rewrite Hm, Ho, Hor, Hme, Hh. simpl.
  rewrite when_length, when_pos. unfold when, headers_Set, skip.
  reflexivity.
Qed.

Lemma handlePreflight_fail (cors : Cors) (r : Request) :
  ~ preflightPasses cors r -> handlePreflight cors r = [].
Proof.
  intros Hn. unfold handlePreflight.
  fold (originOf r) (reqMethodOf r) (reqHeadersOf r).
  destruct (String.eqb_spec (Method r) "OPTIONS") as [Hm | Hm]; [| reflexivity].
  destruct (String.eqb_spec (originOf r) "") as [Ho | Ho]; [reflexivity |].
  destruct (isOriginAllowed cors (originOf r)) eqn:Hor; [| reflexivity].
  destruct (isMethodAllowed cors (reqMethodOf r)) eqn:Hme; [| reflexivity].
  destruct (areHeadersAllowed cors (reqHeadersOf r)) eqn:Hh; [| reflexivity].
  exfalso. apply Hn. repeat split; assumption.
Qed.

Lemma handleActualRequest_pass (cors : Cors) (r : Request) :
  actualPasses cors r -> handleActualRequest cors r = actualResponse cors r.
Proof.
  intros (Hm & Ho & Hor & Hme).
  unfold handleActualRequest, actualResponse. fold (originOf r).
  apply String.eqb_neq in Hm, Ho.
  rewrite Hm, Ho, Hor, Hme. simpl.
  rewrite when_length. unfold when, headers_Set, skip.
  reflexivity.
Qed.

Lemma handleActualRequest_fail (cors : Cors) (r : Request) :
  ~ actualPasses cors r -> handleActualRequest cors r = [].
Proof.
  intros Hn. unfold handleActualRequest. fold (originOf r).
  destruct (String.eqb_spec (Method r) "OPTIONS") as [Hm | Hm]; [reflexivity |].
  destruct (String.eqb_spec (originOf r) "") as [Ho | Ho]; [reflexivity |].
  destruct (isOriginAllowed cors (originOf r)) eqn:Hor; [| reflexivity].
  destruct (isMethodAllowed cors (Method r)) eqn:Hme; [| reflexivity].
  exfalso. apply Hn. repeat split; assumption.
Qed.

Lemma preflightResponse_no_serve (cors : Cors) (r : Request) :
  ServeNext ∉ preflightResponse cors r.
Proof.
  unfold preflightResponse. rewrite !elem_of_app, !elem_of_cons.
  repeat case_decide; destruct (AllowCredentials _);
    rewrite ?elem_of_cons, ?elem_of_nil; prune; intuition discriminate.
Qed.

Lemma actualResponse_no_serve (cors : Cors) (r : Request) :
  ServeNext ∉ actualResponse cors r.
Proof.
  unfold actualResponse. rewrite !elem_of_app, !elem_of_cons.
  repeat case_decide; destruct (AllowCredentials _);
    rewrite ?elem_of_cons, ?elem_of_nil; prune; intuition discriminate.
Qed.

Lemma handlePreflight_no_serve (cors : Cors) (r : Request) :
  ServeNext ∉ handlePreflight cors r.
Proof.
  destruct (preflightPasses_dec cors r) as [Hp | Hn].
  - rewrite handlePreflight_pass by exact Hp. apply preflightResponse_no_serve.
  - rewrite handlePreflight_fail by exact Hn. apply not_elem_of_nil.
Qed.

Lemma handleActualRequest_no_serve (cors : Cors) (r : Request) :
  ServeNext ∉ handleActualRequest cors r.
Proof.
  destruct (actualPasses_dec cors r) as [Hp | Hn].
  - rewrite handleActualRequest_pass by exact Hp. apply actualResponse_no_serve.
  - rewrite handleActualRequest_fail by exact Hn. apply not_elem_of_nil.
Qed.

Lemma run_app (next : http_Header -> http_Header) (p q : Prog)
    (w : http_Header) :
  run next (p ++ q)%list w = run next q (run next p w).
Proof. unfold run. apply fold_left_app. Qed.

Lemma run_no_serve (next1 next2 : http_Header -> http_Header) (p : Prog)
    (w : http_Header) :
  ServeNext ∉ p -> run next1 p w = run next2 p w.
Proof.
  revert w. induction p as [|e p IH]; intros w Hn; [reflexivity |].
  rewrite not_elem_of_cons in Hn. destruct Hn as [He Hp].
  destruct e as [key value |]; [| congruence].
  unfold run in *. simpl. apply IH. exact Hp.
Qed.

Lemma originAdmitted_iff (cors : Cors) (origin : string) :
  originAdmitted cors origin <->
  origin <> "" /\ isOriginAllowed cors origin = true.
Proof.
  unfold originAdmitted, isOriginAllowed.
  rewrite isOriginAllowed_loop_true. reflexivity.
Qed.

Lemma preflightPasses_iff (cors : Cors) (r : Request) :
  preflightPasses cors r <->
  r.(Method) = "OPTIONS" /\ originAdmitted cors (originOf r) /\
  isMethodAllowed cors (reqMethodOf r) = true /\
  areHeadersAllowed cors (reqHeadersOf r) = true.
Proof. unfold preflightPasses. rewrite originAdmitted_iff. tauto. Qed.

Lemma actualPasses_iff (cors : Cors) (r : Request) :
  actualPasses cors r <->
  r.(Method) <> "OPTIONS" /\ originAdmitted cors (originOf r) /\
  isMethodAllowed cors r.(Method) = true.
Proof. unfold actualPasses. rewrite originAdmitted_iff. tauto. Qed.

Lemma handlePreflight_nonempty (cors : Cors) (r : Request) :
  handlePreflight cors r <> [] <-> preflightPasses cors r.
Proof.
  destruct (preflightPasses_dec cors r) as [Hp | Hn].
  - rewrite handlePreflight_pass by exact Hp. split; [intros _; exact Hp | discriminate].
  - rewrite handlePreflight_fail by exact Hn. split; [congruence | contradiction].
Qed.

Lemma handleActualRequest_nonempty (cors : Cors) (r : Request) :
  handleActualRequest cors r <> [] <-> actualPasses cors r.
Proof.
  destruct (actualPasses_dec cors r) as [Hp | Hn].
  - rewrite handleActualRequest_pass by exact Hp. split; [intros _; exact Hp | discriminate].
  - rewrite handleActualRequest_fail by exact Hn. split; [congruence | contradiction].
Qed.

(** Whatever a composer writes, it has written
    [Access-Control-Allow-Origin] with the request's origin, and the origin
    condition holds. *)
Lemma handlePreflight_gated (cors : Cors) (r : Request) (e : Effect) :
  e ∈ handlePreflight cors r ->
  HeaderSet "Access-Control-Allow-Origin" (originOf r) ∈ handlePreflight cors r /\
  originAdmitted cors (originOf r).
Proof.
  intros He. destruct (preflightPasses_dec cors r) as [Hp | Hn].
  - split.
    + rewrite handlePreflight_pass by exact Hp.
      unfold preflightResponse. cbn [app]. apply elem_of_cons. left. reflexivity.
    + apply preflightPasses_iff in Hp. tauto.
  - rewrite handlePreflight_fail in He by exact Hn. inversion He.
Qed.

Lemma handleActualRequest_gated (cors : Cors) (r : Request) (e : Effect) :
  e ∈ handleActualRequest cors r ->
  HeaderSet "Access-Control-Allow-Origin" (originOf r) ∈ handleActualRequest cors r /\
  originAdmitted cors (originOf r).
Proof.
  intros He. destruct (actualPasses_dec cors r) as [Hp | Hn].
  - split.
    + rewrite handleActualRequest_pass by exact Hp.
      unfold actualResponse. cbn [app]. apply elem_of_cons. left. reflexivity.
    + apply actualPasses_iff in Hp. tauto.
  - rewrite handleActualRequest_fail in He by exact Hn. inversion He.
Qed.

Lemma Handler_preflight (cors : Cors) (r : Request) :
  r.(Method) = "OPTIONS" ->
  Handler cors r = handlePreflight cors r /\
  HandlerFunc cors r = handlePreflight cors r /\
  ServeHTTP cors r = handlePreflight cors r.
Proof.
  intros Hm. unfold Handler, HandlerFunc, ServeHTTP. rewrite Hm. auto.
Qed.

Lemma Handler_actual (cors : Cors) (r : Request) :
  r.(Method) <> "OPTIONS" ->
  Handler cors r = (handleActualRequest cors r ++ [ServeNext])%list /\
  HandlerFunc cors r = handleActualRequest cors r /\
  ServeHTTP cors r = (handleActualRequest cors r ++ [ServeNext])%list.
Proof.
  intros Hm. apply String.eqb_neq in Hm.
  unfold Handler, HandlerFunc, ServeHTTP. rewrite Hm. auto.
Qed.

Lemma preflightResponse_lookup (next : http_Header -> http_Header) (cors : Cors)
    (r : Request) (w : http_Header) :
  run next (preflightResponse cors r) w !! "Access-Control-Allow-Origin" =
    Some [originOf r] /\
  run next (preflightResponse cors r) w !! "Access-Control-Allow-Methods" =
    Some [ToUpper (reqMethodOf r)].
Proof.
  unfold preflightResponse, run.
  repeat case_decide; destruct (AllowCredentials _);
    cbn [app fold_left step]; unfold Header_Set; split; by simplify_map_eq.
Qed.

Lemma actualResponse_lookup (next : http_Header -> http_Header) (cors : Cors)
    (r : Request) (w : http_Header) :
  run next (actualResponse cors r) w !! "Access-Control-Allow-Origin" =
    Some [originOf r].
Proof.
  unfold actualResponse, run.
  repeat case_decide; destruct (AllowCredentials _);
    cbn [app fold_left step]; unfold Header_Set; by simplify_map_eq.
Qed.

(** ** The claims *)

(** C1: a preflight request that passes the origin, method and header
    checks makes [handlePreflight] write exactly, in this order:
    [Access-Control-Allow-Origin] with the request's own [Origin] value
    (whatever the allow-list holds, so the wildcard of the policy is never
    substituted for it), [Access-Control-Allow-Methods] with the uppercased
    [Access-Control-Request-Method], [Access-Control-Allow-Headers] with the
    parsed tokens joined by ", " only when there is a token,
    [Access-Control-Allow-Credentials: true] only when the flag is set, and
    [Access-Control-Max-Age] with the decimal [MaxAge] only when
    [MaxAge > 0]. *)
Theorem handlePreflight_emits (cors : Cors) (r : Request) :
  r.(Method) = "OPTIONS" ->
  originOf r <> "" ->
  isOriginAllowed cors (originOf r) = true ->
  isMethodAllowed cors (reqMethodOf r) = true ->
  areHeadersAllowed cors (reqHeadersOf r) = true ->
  handlePreflight cors r =
    ([HeaderSet "Access-Control-Allow-Origin" (originOf r);
      HeaderSet "Access-Control-Allow-Methods" (ToUpper (reqMethodOf r))]
     ++ (if decide (reqHeadersOf r = []) then []
         else [HeaderSet "Access-Control-Allow-Headers" (Join (reqHeadersOf r) ", ")])
     ++ (if cors.(options).(AllowCredentials)
         then [HeaderSet "Access-Control-Allow-Credentials" "true"] else [])
     ++ (if decide (0 < cors.(options).(MaxAge))%Z
         then [HeaderSet "Access-Control-Max-Age" (Itoa cors.(options).(MaxAge))]
         else []))%list
  /\ (forall value,
        HeaderSet "Access-Control-Allow-Origin" value ∈ handlePreflight cors r ->
        value = originOf r)
  /\ (originOf r <> "*" ->
      HeaderSet "Access-Control-Allow-Origin" "*" ∉ handlePreflight cors r)
  /\ ((cors.(options).(MaxAge) <= 0)%Z ->
      ~ writes (handlePreflight cors r) "Access-Control-Max-Age")
  /\ (cors.(options).(AllowCredentials) = false ->
      ~ writes (handlePreflight cors r) "Access-Control-Allow-Credentials")
  /\ (reqHeadersOf r = [] ->
      ~ writes (handlePreflight cors r) "Access-Control-Allow-Headers")
  /\ (forall (next : http_Header -> http_Header) (w : http_Header),
        run next (handlePreflight cors r) w !! "Access-Control-Allow-Origin" =
          Some [originOf r] /\
        run next (handlePreflight cors r) w !! "Access-Control-Allow-Methods" =
          Some [ToUpper (reqMethodOf r)]).
Proof.
  intros Hm Ho Hor Hme Hh.
  assert (Hp : preflightPasses cors r) by (repeat split; assumption).
  rewrite (handlePreflight_pass cors r Hp).
  assert (Hlook := fun next w => preflightResponse_lookup next cors r w).
  revert Hlook. unfold preflightResponse, writes. intros Hlook.
  assert (Hval : forall value,
    HeaderSet "Access-Control-Allow-Origin" value ∈
      ([HeaderSet "Access-Control-Allow-Origin" (originOf r);
        HeaderSet "Access-Control-Allow-Methods" (ToUpper (reqMethodOf r))]
       ++ (if decide (reqHeadersOf r = []) then []
           else [HeaderSet "Access-Control-Allow-Headers" (Join (reqHeadersOf r) ", ")])
       ++ (if cors.(options).(AllowCredentials)
           then [HeaderSet "Access-Control-Allow-Credentials" "true"] else [])
       ++ (if decide (0 < cors.(options).(MaxAge))%Z
           then [HeaderSet "Access-Control-Max-Age" (Itoa cors.(options).(MaxAge))]
           else []))%list ->
    value = originOf r).
  { intros value. rewrite !elem_of_app, !elem_of_cons.
    repeat case_decide; destruct (AllowCredentials _);
      rewrite ?elem_of_cons, ?elem_of_nil; prune; intuition congruence. }
  split; [reflexivity |]. split; [exact Hval |].
  split; [intros Hstar Hin; apply Hval in Hin; congruence |].
  split; [| split; [| split; [| exact Hlook]]].
  - intros Hle [value Hin]. revert Hin. rewrite !elem_of_app, !elem_of_cons.
    destruct (decide (0 < MaxAge (options cors))%Z) as [Hpos | Hpos]; [lia |].
    case_decide; destruct (AllowCredentials _);
      rewrite ?elem_of_cons, ?elem_of_nil; prune; intuition congruence.
  - intros Hc [value Hin]. revert Hin. rewrite Hc, !elem_of_app, !elem_of_cons.
    repeat case_decide; rewrite ?elem_of_cons, ?elem_of_nil; prune; intuition congruence.
  - intros Hnil [value Hin]. revert Hin. rewrite !elem_of_app, !elem_of_cons.
    destruct (decide (reqHeadersOf r = [])) as [Hd | Hd]; [| contradiction].
    case_decide; destruct (AllowCredentials _);
      rewrite ?elem_of_cons, ?elem_of_nil; prune; intuition congruence.
Qed.

(** C2: the method matcher allows a method exactly when the allowed-method
    list is non-empty and the uppercased method is "OPTIONS" or an entry of
    the list; with an empty list it allows no method, "OPTIONS"
    included. *)
Theorem isMethodAllowed_iff (cors : Cors) (method : string) :
  (isMethodAllowed cors method = true <->
   cors.(options).(AllowedMethods) <> [] /\
   (ToUpper method = "OPTIONS" \/
    ToUpper method ∈ cors.(options).(AllowedMethods)))
  /\ (cors.(options).(AllowedMethods) = [] ->
      isMethodAllowed cors method = false /\
      isMethodAllowed cors "OPTIONS" = false).
Proof.
  unfold isMethodAllowed. split.
  - destruct (AllowedMethods (options cors)) as [|a rest] eqn:Hl; simpl.
    + split; [discriminate | intros [Hne _]; congruence].
    + destruct (String.eqb_spec (ToUpper method) "OPTIONS") as [Hopt | Hopt].
      * split; [intros _; split; [discriminate | left; exact Hopt] | reflexivity].
      * change (if (a =? ToUpper method) then true
                else isMethodAllowed_loop (ToUpper method) rest)
          with (isMethodAllowed_loop (ToUpper method) (a :: rest)).
        rewrite isMethodAllowed_loop_true. split.
        -- intros Hin. split; [discriminate | right; exact Hin].
        -- intros [_ [H | H]]; [contradiction | exact H].
  - intros Hnil. rewrite Hnil. split; reflexivity.
Qed.

(** C3: in the preflight path and in the actual-request path the origin
    check passes exactly when the [Origin] value is non-empty and the
    allowed-origin list contains "*" or the lowercased value; each path
    writes headers exactly when this holds together with its other checks,
    and an empty or missing [Origin] header writes nothing. *)
Theorem origin_check_iff (cors : Cors) (r : Request) :
  ((originOf r =? "") || negb (isOriginAllowed cors (originOf r)) = false <->
   originOf r <> "" /\
   ("*" ∈ cors.(options).(AllowedOrigins) \/
    ToLower (originOf r) ∈ cors.(options).(AllowedOrigins)))
  /\ (handlePreflight cors r <> [] <->
      r.(Method) = "OPTIONS" /\ originAdmitted cors (originOf r) /\
      isMethodAllowed cors (reqMethodOf r) = true /\
      areHeadersAllowed cors (reqHeadersOf r) = true)
  /\ (handleActualRequest cors r <> [] <->
      r.(Method) <> "OPTIONS" /\ originAdmitted cors (originOf r) /\
      isMethodAllowed cors r.(Method) = true)
  /\ (~ originAdmitted cors (originOf r) ->
      handlePreflight cors r = [] /\ handleActualRequest cors r = [])
  /\ (r.(Header) !! "Origin" = None \/ originOf r = "" ->
      ~ originAdmitted cors (originOf r)).
Proof.
  split; [| split; [| split; [| split]]].
  - fold (originAdmitted cors (originOf r)). rewrite originAdmitted_iff.
    destruct (String.eqb_spec (originOf r) "") as [He | He];
      destruct (isOriginAllowed cors (originOf r)); simpl; prune; intuition congruence.
  - rewrite handlePreflight_nonempty. apply preflightPasses_iff.
  - rewrite handleActualRequest_nonempty. apply actualPasses_iff.
  - intros Hn. split.
    + apply handlePreflight_fail. rewrite preflightPasses_iff. tauto.
    + apply handleActualRequest_fail. rewrite actualPasses_iff. tauto.
  - intros Hmiss [Hne _]. apply Hne. destruct Hmiss as [Hnone | He]; [| exact He].
    unfold originOf, Header_Get. rewrite Hnone. reflexivity.
Qed.

(** C4: the header matcher allows a token sequence exactly when it is empty
    or every token is equal, as a string, to an entry of the allowed-header
    list; one token outside the list fails the check. *)
Theorem areHeadersAllowed_iff (cors : Cors) (requestedHeaders : list string) :
  (areHeadersAllowed cors requestedHeaders = true <->
   requestedHeaders = [] \/
   forall header, header ∈ requestedHeaders ->
                  header ∈ cors.(options).(AllowedHeaders))
  /\ (forall header, header ∈ requestedHeaders ->
                     header ∉ cors.(options).(AllowedHeaders) ->
                     areHeadersAllowed cors requestedHeaders = false).
Proof.
  assert (Hiff : areHeadersAllowed cors requestedHeaders = true <->
                 forall header, header ∈ requestedHeaders ->
                                header ∈ cors.(options).(AllowedHeaders)).
  { unfold areHeadersAllowed.
    destruct requestedHeaders as [|h rest]; simpl length; cbn [Nat.eqb].
    - split; [intros _ header Hin; inversion Hin | reflexivity].
    - rewrite areHeadersAllowed_loop_true, Forall_forall. reflexivity. }
  split.
  - rewrite Hiff. split; [intros H; right; exact H |].
    intros [-> | H]; [intros header Hin; inversion Hin | exact H].
  - intros header Hin Hnot.
    destruct (areHeadersAllowed cors requestedHeaders) eqn:Hall; [| reflexivity].
    exfalso. apply Hnot. apply Hiff; [reflexivity | exact Hin].
Qed.

(** C5: for a request whose method is "OPTIONS" no entry point calls the
    wrapped handler, whether the checks pass or fail; and when the origin is
    empty or the origin, method or header matcher fails, nothing at all is
    written. *)
Theorem preflight_never_serves (cors : Cors) (r : Request) :
  r.(Method) = "OPTIONS" ->
  ((ServeNext ∉ Handler cors r) /\ (ServeNext ∉ ServeHTTP cors r) /\
   (ServeNext ∉ HandlerFunc cors r))
  /\ (forall (next1 next2 : http_Header -> http_Header) (w : http_Header),
        run next1 (Handler cors r) w = run next2 (Handler cors r) w /\
        run next1 (ServeHTTP cors r) w = run next2 (ServeHTTP cors r) w)
  /\ (originOf r = "" \/
      isOriginAllowed cors (originOf r) = false \/
      isMethodAllowed cors (reqMethodOf r) = false \/
      areHeadersAllowed cors (reqHeadersOf r) = false ->
      handlePreflight cors r = [] /\ Handler cors r = [] /\
      ServeHTTP cors r = [] /\ HandlerFunc cors r = [] /\
      forall (next : http_Header -> http_Header) (w : http_Header),
        run next (Handler cors r) w = w).
Proof.
  intros Hm. destruct (Handler_preflight cors r Hm) as (HH & HF & HS).
  rewrite HH, HF, HS.
  pose proof (handlePreflight_no_serve cors r) as Hno.
  split; [auto |]. split.
  - intros next1 next2 w. split; apply run_no_serve; exact Hno.
  - intros Hfail.
    assert (He : handlePreflight cors r = []).
    { apply handlePreflight_fail. intros (_ & Ho & Hor & Hme & Hh).
      destruct Hfail as [H | [H | [H | H]]]; congruence. }
    rewrite He. repeat split; reflexivity.
Qed.

(** C6: for a request whose method is not "OPTIONS", [handleActualRequest]
    writes nothing when the origin is empty, the origin matcher fails or the
    method matcher fails on the request's method; otherwise it writes
    exactly [Access-Control-Allow-Origin] with the request's origin,
    [Access-Control-Expose-Headers] with the exposed headers joined by ", "
    only when there is one, and [Access-Control-Allow-Credentials: true]
    only when the flag is set. *)
Theorem handleActualRequest_emits (cors : Cors) (r : Request) :
  r.(Method) <> "OPTIONS" ->
  (originOf r = "" \/
   isOriginAllowed cors (originOf r) = false \/
   isMethodAllowed cors r.(Method) = false ->
   handleActualRequest cors r = [])
  /\ (originOf r <> "" ->
      isOriginAllowed cors (originOf r) = true ->
      isMethodAllowed cors r.(Method) = true ->
      handleActualRequest cors r =
        ([HeaderSet "Access-Control-Allow-Origin" (originOf r)]
         ++ (if decide (cors.(options).(ExposedHeaders) = []) then []
             else [HeaderSet "Access-Control-Expose-Headers"
                     (Join cors.(options).(ExposedHeaders) ", ")])
         ++ (if cors.(options).(AllowCredentials)
             then [HeaderSet "Access-Control-Allow-Credentials" "true"]
             else []))%list
      /\ forall (next : http_Header -> http_Header) (w : http_Header),
          run next (handleActualRequest cors r) w !! "Access-Control-Allow-Origin" =
            Some [originOf r]).
Proof.
  intros Hm. split.
  - intros Hfail. apply handleActualRequest_fail. intros (_ & Ho & Hor & Hme).
    destruct Hfail as [H | [H | H]]; congruence.
  - intros Ho Hor Hme.
    assert (Hp : actualPasses cors r) by (repeat split; assumption).
    rewrite (handleActualRequest_pass cors r Hp). split; [reflexivity |].
    intros next w. apply actualResponse_lookup.
Qed.

(** C7: for a request whose method is not "OPTIONS", [Handler] and
    [ServeHTTP] call the wrapped handler exactly once, after the header
    step, whether the checks passed or not; when a check fails the call is
    all that happens. *)
Theorem actual_always_serves (cors : Cors) (r : Request) :
  r.(Method) <> "OPTIONS" ->
  Handler cors r = (handleActualRequest cors r ++ [ServeNext])%list
  /\ ServeHTTP cors r = (handleActualRequest cors r ++ [ServeNext])%list
  /\ (ServeNext ∉ handleActualRequest cors r)
  /\ (forall (next : http_Header -> http_Header) (w : http_Header),
        run next (Handler cors r) w =
        next (run next (handleActualRequest cors r) w))
  /\ (originOf r = "" \/
      isOriginAllowed cors (originOf r) = false \/
      isMethodAllowed cors r.(Method) = false ->
      Handler cors r = [ServeNext] /\ ServeHTTP cors r = [ServeNext]).
Proof.
  intros Hm. destruct (Handler_actual cors r Hm) as (HH & _ & HS).
  rewrite HH, HS. split; [reflexivity |]. split; [reflexivity |].
  split; [apply handleActualRequest_no_serve |]. split.
  - intros next w. rewrite run_app. reflexivity.
  - intros Hfail.
    assert (He : handleActualRequest cors r = []).
    { apply handleActualRequest_fail. intros (_ & Ho & Hor & Hme).
      destruct Hfail as [H | [H | H]]; congruence. }
    rewrite He. split; reflexivity.
Qed.

(** C8: [New] lowercases every allowed origin, uppercases every allowed
    method, canonicalises the allowed and the exposed header names, appends
    "Origin" to the allowed headers before canonicalising them, keeps the
    two scalars, and replaces a list by its default only when it is empty
    after normalisation: ["*"] for the origins, ["GET"; "POST"] for the
    methods. *)
Theorem New_normalizes (o : Options) :
  (New o).(options).(AllowedOrigins) =
    (if decide (map ToLower o.(AllowedOrigins) = []) then ["*"]
     else map ToLower o.(AllowedOrigins))
  /\ (New o).(options).(AllowedMethods) =
    (if decide (map ToUpper o.(AllowedMethods) = []) then ["GET"; "POST"]
     else map ToUpper o.(AllowedMethods))
  /\ (New o).(options).(AllowedHeaders) =
    (map toHeader o.(AllowedHeaders) ++ [toHeader "Origin"])%list
  /\ (New o).(options).(ExposedHeaders) = map toHeader o.(ExposedHeaders)
  /\ (New o).(options).(AllowCredentials) = o.(AllowCredentials)
  /\ (New o).(options).(MaxAge) = o.(MaxAge)
  /\ toHeader "Origin" ∈ (New o).(options).(AllowedHeaders)
  /\ (map ToLower o.(AllowedOrigins) = [] <-> o.(AllowedOrigins) = [])
  /\ (map ToUpper o.(AllowedMethods) = [] <-> o.(AllowedMethods) = [])
  /\ (New o).(options).(AllowedOrigins) <> []
  /\ (New o).(options).(AllowedMethods) <> [].
Proof.
  destruct o as [origins methods headers exposed credentials age].
  unfold New, convert. cbn [AllowedOrigins AllowedMethods AllowedHeaders
    ExposedHeaders AllowCredentials MaxAge options].
  rewrite map_app. cbn [map].
  destruct origins as [|o1 origins]; destruct methods as [|m1 methods];
    cbn [map length Nat.eqb AllowedOrigins AllowedMethods AllowedHeaders
         ExposedHeaders AllowCredentials MaxAge options];
    repeat case_decide; try congruence;
    (repeat split; try reflexivity; try discriminate;
     rewrite elem_of_app, elem_of_cons; right; left; reflexivity).
Qed.

(** C9: with a non-empty allowed-method list that does not contain
    "OPTIONS", the method matcher still allows the method of a request whose
    method is exactly "OPTIONS"; every such request is handled by
    [handlePreflight] alone in every entry point, [handleActualRequest]
    does nothing for it, and a method that differs from "OPTIONS" only in
    case is not a preflight. *)
Theorem options_always_preflight (cors : Cors) (r : Request) :
  cors.(options).(AllowedMethods) <> [] ->
  "OPTIONS" ∉ cors.(options).(AllowedMethods) ->
  r.(Method) = "OPTIONS" ->
  isMethodAllowed cors r.(Method) = true
  /\ (forall method, ToUpper method = "OPTIONS" ->
                     isMethodAllowed cors method = true)
  /\ Handler cors r = handlePreflight cors r
  /\ HandlerFunc cors r = handlePreflight cors r
  /\ ServeHTTP cors r = handlePreflight cors r
  /\ handleActualRequest cors r = []
  /\ (forall r' : Request, r'.(Method) = "options" ->
        Handler cors r' = (handleActualRequest cors r' ++ [ServeNext])%list).
Proof.
  intros Hne Hnot Hm.
  destruct (Handler_preflight cors r Hm) as (HH & HF & HS).
  rewrite HH, HF, HS. split; [| split; [| repeat split]].
  - rewrite Hm. unfold isMethodAllowed.
    destruct (AllowedMethods (options cors)); [congruence | reflexivity].
  - intros method Hup. unfold isMethodAllowed. rewrite Hup.
    destruct (AllowedMethods (options cors)); [congruence | reflexivity].
  - apply handleActualRequest_fail. intros (Hm' & _). congruence.
  - intros r' Hm'. apply Handler_actual. rewrite Hm'. discriminate.
Qed.

(** C10: whenever an entry point of the component writes one of
    [Access-Control-Allow-Methods], [Access-Control-Allow-Headers],
    [Access-Control-Allow-Credentials], [Access-Control-Max-Age] or
    [Access-Control-Expose-Headers], the same invocation writes
    [Access-Control-Allow-Origin] with the request's origin, and the origin
    check has passed. *)
Theorem conditional_headers_gated (cors : Cors) (r : Request) (p : Prog) (key : string) :
  p ∈ [handlePreflight cors r; handleActualRequest cors r;
       Handler cors r; HandlerFunc cors r; ServeHTTP cors r] ->
  key ∈ conditionalHeaders ->
  writes p key ->
  writes p "Access-Control-Allow-Origin"
  /\ HeaderSet "Access-Control-Allow-Origin" (originOf r) ∈ p
  /\ originAdmitted cors (originOf r).
Proof.
  intros Hp _ [value Hin].
  assert (Hgoal : HeaderSet "Access-Control-Allow-Origin" (originOf r) ∈ p /\
                  originAdmitted cors (originOf r)).
  { assert (Hserve : forall q : Prog,
      HeaderSet key value ∈ (q ++ [ServeNext])%list -> HeaderSet key value ∈ q).
    { intros q. rewrite elem_of_app, elem_of_cons, elem_of_nil.
      intros [H | [H | []]]; [exact H | discriminate]. }
    rewrite !elem_of_cons, elem_of_nil in Hp.
    destruct (decide (r.(Method) = "OPTIONS")) as [Hm | Hm].
    - destruct (Handler_preflight cors r Hm) as (HH & HF & HS).
      rewrite HH, HF, HS in Hp.
      destruct Hp as [-> | [-> | [-> | [-> | [-> | []]]]]];
        first [ eapply handlePreflight_gated; exact Hin
              | eapply handleActualRequest_gated; exact Hin ].
    - destruct (Handler_actual cors r Hm) as (HH & HF & HS).
      rewrite HH, HF, HS in Hp.
      destruct Hp as [-> | [-> | [-> | [-> | [-> | []]]]]];
        try apply Hserve in Hin;
        first [ destruct (handlePreflight_gated cors r _ Hin) as [H1 H2]
              | destruct (handleActualRequest_gated cors r _ Hin) as [H1 H2] ];
        (split; [rewrite ?elem_of_app; auto | exact H2]). }
  destruct Hgoal as [H1 H2]. split; [eexists; exact H1 | split; assumption].
Qed.

(** ** Further properties of the matchers, the composers and [New] *)

(** *** Case mapping on ASCII bytes *)

Lemma upperByte_upperByte (c : ascii) : upperByte (upperByte c) = upperByte c.
Proof. destruct c as [[] [] [] [] [] [] [] []]; reflexivity. Qed.

Lemma upperByte_lowerByte (c : ascii) : upperByte (lowerByte c) = upperByte c.
Proof. destruct c as [[] [] [] [] [] [] [] []]; reflexivity. Qed.

Lemma lowerByte_lowerByte (c : ascii) : lowerByte (lowerByte c) = lowerByte c.
Proof. destruct c as [[] [] [] [] [] [] [] []]; reflexivity. Qed.

Lemma lowerByte_upperByte (c : ascii) : lowerByte (upperByte c) = lowerByte c.
Proof. destruct c as [[] [] [] [] [] [] [] []]; reflexivity. Qed.

Lemma isASCIIByte_upperByte (c : ascii) : isASCIIByte (upperByte c) = isASCIIByte c.
Proof. destruct c as [[] [] [] [] [] [] [] []]; reflexivity. Qed.

Lemma isASCIIByte_lowerByte (c : ascii) : isASCIIByte (lowerByte c) = isASCIIByte c.
Proof. destruct c as [[] [] [] [] [] [] [] []]; reflexivity. Qed.

Lemma isASCII_mapBytes (f : ascii -> ascii) (s : string) :
  (forall c, isASCIIByte (f c) = isASCIIByte c) ->
  isASCII (mapBytes f s) = isASCII s.
Proof.
  intros Hf. induction s as [|c s IH]; [reflexivity |].
  simpl. rewrite Hf, IH. reflexivity.
Qed.

Lemma mapBytes_mapBytes (f g h : ascii -> ascii) (s : string) :
  (forall c, f (g c) = h c) -> mapBytes f (mapBytes g s) = mapBytes h s.
Proof.
  intros Hf. induction s as [|c s IH]; [reflexivity |].
  simpl. rewrite Hf, IH. reflexivity.
Qed.

Lemma ToUpper_ascii (s : string) :
  isASCII s = true ->
  ToUpper (ToUpper s) = ToUpper s /\ ToUpper (ToLower s) = ToUpper s.
Proof.
  intros Hs. unfold ToUpper, ToLower. rewrite Hs.
  rewrite (isASCII_mapBytes upperByte s isASCIIByte_upperByte),
          (isASCII_mapBytes lowerByte s isASCIIByte_lowerByte), Hs.
  split; apply mapBytes_mapBytes;
    [apply upperByte_upperByte | apply upperByte_lowerByte].
Qed.

Lemma ToLower_ascii (s : string) :
  isASCII s = true ->
  ToLower (ToLower s) = ToLower s /\ ToLower (ToUpper s) = ToLower s.
Proof.
  intros Hs. unfold ToUpper, ToLower. rewrite Hs.
  rewrite (isASCII_mapBytes upperByte s isASCIIByte_upperByte),
          (isASCII_mapBytes lowerByte s isASCIIByte_lowerByte), Hs.
  split; apply mapBytes_mapBytes;
    [apply lowerByte_lowerByte | apply lowerByte_upperByte].
Qed.

(** *** The matchers as membership tests *)

Lemma isOriginAllowed_true (cors : Cors) (origin : string) :
  isOriginAllowed cors origin = true <->
  "*" ∈ cors.(options).(AllowedOrigins) \/
  ToLower origin ∈ cors.(options).(AllowedOrigins).
Proof. unfold isOriginAllowed. apply isOriginAllowed_loop_true. Qed.

Lemma isMethodAllowed_true (cors : Cors) (method : string) :
  isMethodAllowed cors method = true <->
  cors.(options).(AllowedMethods) <> [] /\
  (ToUpper method = "OPTIONS" \/ ToUpper method ∈ cors.(options).(AllowedMethods)).
Proof.
  unfold isMethodAllowed.
  destruct (AllowedMethods (options cors)) as [|a rest] eqn:Hl.
  - simpl. split; [discriminate | intros [Hne _]; congruence].
  - cbn [length Nat.eqb].
    destruct (String.eqb_spec (ToUpper method) "OPTIONS") as [Hopt | Hopt].
    + split; [intros _; split; [discriminate | left; exact Hopt] | reflexivity].
    + rewrite isMethodAllowed_loop_true. split.
      * intros Hin. split; [discriminate | right; exact Hin].
      * intros [_ [H | H]]; [contradiction | exact H].
Qed.

Lemma areHeadersAllowed_true (cors : Cors) (requestedHeaders : list string) :
  areHeadersAllowed cors requestedHeaders = true <->
  forall header, header ∈ requestedHeaders ->
                 header ∈ cors.(options).(AllowedHeaders).
Proof.
  unfold areHeadersAllowed.
  destruct requestedHeaders as [|h rest]; cbn [length Nat.eqb].
  - split; [intros _ header Hin; inversion Hin | reflexivity].
  - rewrite areHeadersAllowed_loop_true, Forall_forall. reflexivity.
Qed.

(** *** Programs and header maps *)

Lemma keys_app (p q : Prog) : keys (p ++ q)%list = (keys p ++ keys q)%list.
Proof.
  induction p as [|[k v|] p IH]; simpl; [reflexivity | | exact IH].
  rewrite IH. reflexivity.
Qed.

Lemma elem_of_keys (p : Prog) (key : string) : key ∈ keys p <-> writes p key.
Proof.
  unfold writes. induction p as [|[k v|] p IH]; simpl.
  - split; [intros H; inversion H | intros [v H]; inversion H].
  - rewrite elem_of_cons, IH. split.
    + intros [-> | [v' H]]; [exists v; left | exists v'; right; exact H].
    + intros [v' H]. apply elem_of_cons in H. destruct H as [H | H].
      * left. congruence.
      * right. exists v'. exact H.
  - rewrite IH. split; intros [v' H]; exists v'.
    + right. exact H.
    + apply elem_of_cons in H. destruct H as [H | H]; [discriminate | exact H].
Qed.

Lemma lastWrite_None (key : string) (p : Prog) :
  lastWrite key p = None <-> ~ writes p key.
Proof.
  rewrite <- elem_of_keys. induction p as [|[k v|] p IH]; simpl.
  - split; [intros _ H; inversion H | reflexivity].
  - rewrite not_elem_of_cons. destruct (lastWrite key p) as [v' |].
    + split; [discriminate |]. intros [_ H]. apply IH in H. discriminate.
    + destruct (String.eqb_spec k key) as [-> | Hne].
      * split; [discriminate | intros [H _]; congruence].
      * split; [intros _; split; [congruence | apply IH; reflexivity] | reflexivity].
  - destruct (lastWrite key p); [| exact IH].
    split; [discriminate |]. intros H. apply IH in H. discriminate.
Qed.

(** The header map after a program without delegation: the last [Set] of a
    key wins, a key that is not set keeps its values. *)
Lemma run_lookup (next : http_Header -> http_Header) (p : Prog)
    (w : http_Header) (key : string) :
  (ServeNext ∉ p) ->
  run next p w !! key =
    match lastWrite key p with
    | Some value => Some [value]
    | None => w !! key
    end.
Proof.
  revert w. induction p as [|e p IH]; intros w Hs; [reflexivity |].
  rewrite not_elem_of_cons in Hs. destruct Hs as [He Hs].
  destruct e as [k v |]; [| congruence].
  unfold run in *. cbn [fold_left step lastWrite]. rewrite (IH _ Hs).
  destruct (lastWrite key p) as [v' |]; [reflexivity |].
  unfold Header_Set. destruct (String.eqb_spec k key) as [-> | Hne].
  - apply lookup_insert_eq.
  - apply lookup_insert_ne. exact Hne.
Qed.

Lemma HandlerFunc_no_serve (cors : Cors) (r : Request) :
  ServeNext ∉ HandlerFunc cors r.
Proof.
  unfold HandlerFunc. destruct (Method r =? "OPTIONS").
  - apply handlePreflight_no_serve.
  - apply handleActualRequest_no_serve.
Qed.

(** *** The entry points *)

(** X1: [HandlerFunc] never calls a wrapped handler, for any request;
    [Handler] and [ServeHTTP] do what [HandlerFunc] does and then, unless the
    method is "OPTIONS", delegate once; so the header map that the wrapped
    handler receives is the one [HandlerFunc] produces. *)
Theorem entry_points_agree (cors : Cors) (r : Request) :
  (ServeNext ∉ HandlerFunc cors r)
  /\ Handler cors r =
       (HandlerFunc cors r
        ++ (if decide (r.(Method) = "OPTIONS") then [] else [ServeNext]))%list
  /\ ServeHTTP cors r = Handler cors r
  /\ (forall (next : http_Header -> http_Header) (w : http_Header),
        run next (Handler cors r) w =
          (if decide (r.(Method) = "OPTIONS") then run next (HandlerFunc cors r) w
           else next (run next (HandlerFunc cors r) w))).
Proof.
  split; [apply HandlerFunc_no_serve |].
  assert (HH : Handler cors r =
    (HandlerFunc cors r
     ++ (if decide (r.(Method) = "OPTIONS") then [] else [ServeNext]))%list).
  { case_decide as Hm.
    - destruct (Handler_preflight cors r Hm) as (-> & -> & _).
      rewrite app_nil_r. reflexivity.
    - destruct (Handler_actual cors r Hm) as (-> & -> & _). reflexivity. }
  split; [exact HH |]. split; [reflexivity |].
  intros next w. rewrite HH, run_app. case_decide; reflexivity.
Qed.

(** X2: the header names set by [handlePreflight] form a subsequence of
    Allow-Origin, Allow-Methods, Allow-Headers, Allow-Credentials, Max-Age,
    and those set by [handleActualRequest] a subsequence of Allow-Origin,
    Expose-Headers, Allow-Credentials: no other header is ever set, none is
    set twice, and the order is fixed.  In particular a preflight never
    exposes headers and an actual request never gets Allow-Methods,
    Allow-Headers or Max-Age. *)
Theorem header_names_written (cors : Cors) (r : Request) :
  keys (handlePreflight cors r) `sublist_of`
    ["Access-Control-Allow-Origin"; "Access-Control-Allow-Methods";
     "Access-Control-Allow-Headers"; "Access-Control-Allow-Credentials";
     "Access-Control-Max-Age"]
  /\ keys (handleActualRequest cors r) `sublist_of`
    ["Access-Control-Allow-Origin"; "Access-Control-Expose-Headers";
     "Access-Control-Allow-Credentials"]
  /\ ~ writes (handlePreflight cors r) "Access-Control-Expose-Headers"
  /\ (forall key, writes (handleActualRequest cors r) key ->
                  key <> "Access-Control-Allow-Methods" /\
                  key <> "Access-Control-Allow-Headers" /\
                  key <> "Access-Control-Max-Age").
Proof.
  assert (Hpre : keys (handlePreflight cors r) `sublist_of`
    ["Access-Control-Allow-Origin"; "Access-Control-Allow-Methods";
     "Access-Control-Allow-Headers"; "Access-Control-Allow-Credentials";
     "Access-Control-Max-Age"]).
  { destruct (preflightPasses_dec cors r) as [Hp | Hn].
    - rewrite handlePreflight_pass by exact Hp. unfold preflightResponse.
      repeat case_decide; destruct (AllowCredentials _);
        cbn [app keys]; repeat constructor.
    - rewrite handlePreflight_fail by exact Hn. apply sublist_nil_l. }
  assert (Hact : keys (handleActualRequest cors r) `sublist_of`
    ["Access-Control-Allow-Origin"; "Access-Control-Expose-Headers";
     "Access-Control-Allow-Credentials"]).
  { destruct (actualPasses_dec cors r) as [Hp | Hn].
    - rewrite handleActualRequest_pass by exact Hp. unfold actualResponse.
      repeat case_decide; destruct (AllowCredentials _);
        cbn [app keys]; repeat constructor.
    - rewrite handleActualRequest_fail by exact Hn. apply sublist_nil_l. }
  split; [exact Hpre |]. split; [exact Hact |]. split.
  - rewrite <- elem_of_keys. intros Hin.
    apply (fun H => elem_of_sublist _ _ _ H Hpre) in Hin.
    rewrite !elem_of_cons, elem_of_nil in Hin.
    prune; intuition discriminate.
  - intros key Hw. apply elem_of_keys in Hw.
    apply (fun H => elem_of_sublist _ _ _ H Hact) in Hw.
    rewrite !elem_of_cons, elem_of_nil in Hw.
    destruct Hw as [-> | [-> | [-> | []]]]; repeat split; discriminate.
Qed.

(** X3: whatever the request, the component leaves every response header
    other than the six CORS headers as it found it: it never deletes or
    changes a header set by somebody else. *)
Theorem other_headers_untouched (cors : Cors) (r : Request)
    (next : http_Header -> http_Header) (w : http_Header) (key : string) :
  key ∉ corsHeaders ->
  run next (HandlerFunc cors r) w !! key = w !! key.
Proof.
  intros Hkey. rewrite run_lookup by apply HandlerFunc_no_serve.
  assert (Hnone : lastWrite key (HandlerFunc cors r) = None).
  { apply lastWrite_None. intros [value Hin]. apply Hkey.
    unfold corsHeaders, conditionalHeaders. unfold HandlerFunc in Hin.
    destruct (Method r =? "OPTIONS").
    - destruct (preflightPasses_dec cors r) as [Hp | Hn].
      + rewrite handlePreflight_pass in Hin by exact Hp.
        unfold preflightResponse in Hin. revert Hin.
        rewrite !elem_of_app, !elem_of_cons.
        repeat case_decide; destruct (AllowCredentials _);
          rewrite ?elem_of_cons, ?elem_of_nil; prune; intuition congruence.
      + rewrite handlePreflight_fail in Hin by exact Hn. inversion Hin.
    - destruct (actualPasses_dec cors r) as [Hp | Hn].
      + rewrite handleActualRequest_pass in Hin by exact Hp.
        unfold actualResponse in Hin. revert Hin.
        rewrite !elem_of_app, !elem_of_cons.
        repeat case_decide; destruct (AllowCredentials _);
          rewrite ?elem_of_cons, ?elem_of_nil; prune; intuition congruence.
      + rewrite handleActualRequest_fail in Hin by exact Hn. inversion Hin. }
  rewrite Hnone. reflexivity.
Qed.

(** X4: the header step is idempotent on the response: because every header
    is written with [Set], running it a second time for the same request
    leaves the header map as the first run left it. *)
Theorem header_step_idempotent (cors : Cors) (r : Request)
    (next : http_Header -> http_Header) (w : http_Header) :
  run next (HandlerFunc cors r) (run next (HandlerFunc cors r) w) =
  run next (HandlerFunc cors r) w.
Proof.
  apply map_eq. intros key.
  rewrite (run_lookup next _ (run next (HandlerFunc cors r) w))
    by apply HandlerFunc_no_serve.
  destruct (lastWrite key (HandlerFunc cors r)) as [value |] eqn:Hlast;
    [| reflexivity].
  rewrite run_lookup by apply HandlerFunc_no_serve.
  rewrite Hlast. reflexivity.
Qed.

(** X5: a policy whose allowed-method list or allowed-origin list is empty
    never writes a header, preflight or not: [Handler] does nothing for
    "OPTIONS" and only delegates otherwise. *)
Theorem empty_list_locks_down (cors : Cors) (r : Request) :
  cors.(options).(AllowedMethods) = [] \/ cors.(options).(AllowedOrigins) = [] ->
  HandlerFunc cors r = []
  /\ Handler cors r = (if decide (r.(Method) = "OPTIONS") then [] else [ServeNext]).
Proof.
  intros Hempty.
  assert (Hpre : handlePreflight cors r = []).
  { apply handlePreflight_fail. intros (_ & _ & Hor & Hme & _).
    destruct Hempty as [He | He].
    - apply isMethodAllowed_true in Hme. destruct Hme as [Hne _]. congruence.
    - apply isOriginAllowed_true in Hor. rewrite He in Hor.
      destruct Hor as [H | H]; inversion H. }
  assert (Hact : handleActualRequest cors r = []).
  { apply handleActualRequest_fail. intros (_ & _ & Hor & Hme).
    destruct Hempty as [He | He].
    - apply isMethodAllowed_true in Hme. destruct Hme as [Hne _]. congruence.
    - apply isOriginAllowed_true in Hor. rewrite He in Hor.
      destruct Hor as [H | H]; inversion H. }
  case_decide as Hm.
  - destruct (Handler_preflight cors r Hm) as (-> & -> & _). auto.
  - destruct (Handler_actual cors r Hm) as (-> & -> & _).
    rewrite Hact. auto.
Qed.

(** X6: a preflight that carries no [Access-Control-Request-Method] header
    (or an empty one) is rejected without any header, unless the empty
    string is itself an allowed method. *)
Theorem preflight_without_method (cors : Cors) (r : Request) :
  r.(Header) !! "Access-Control-Request-Method" = None \/ reqMethodOf r = "" ->
  "" ∉ cors.(options).(AllowedMethods) ->
  isMethodAllowed cors (reqMethodOf r) = false /\ handlePreflight cors r = [].
Proof.
  intros Hmiss Hnot.
  assert (He : reqMethodOf r = "").
  { destruct Hmiss as [Hnone | He]; [| exact He].
    unfold reqMethodOf, Header_Get. rewrite Hnone. reflexivity. }
  assert (Hf : isMethodAllowed cors (reqMethodOf r) = false).
  { destruct (isMethodAllowed cors (reqMethodOf r)) eqn:Hme; [| reflexivity].
    apply isMethodAllowed_true in Hme. rewrite He in Hme.
    destruct Hme as [_ [H | H]]; [discriminate H | contradiction]. }
  split; [exact Hf |].
  apply handlePreflight_fail. intros (_ & _ & _ & Hme & _). congruence.
Qed.

(** X7: on ASCII input the matchers ignore case: the method matcher and the
    origin matcher give the same answer for a string, its uppercased form
    and its lowercased form. *)
Theorem matchers_ignore_case (cors : Cors) (s : string) :
  isASCII s = true ->
  isMethodAllowed cors (ToUpper s) = isMethodAllowed cors s
  /\ isMethodAllowed cors (ToLower s) = isMethodAllowed cors s
  /\ isOriginAllowed cors (ToUpper s) = isOriginAllowed cors s
  /\ isOriginAllowed cors (ToLower s) = isOriginAllowed cors s.
Proof.
  intros Hs.
  destruct (ToUpper_ascii s Hs) as [Huu Hul].
  destruct (ToLower_ascii s Hs) as [Hll Hlu].
  unfold isMethodAllowed, isOriginAllowed.
  rewrite Huu, Hul, Hll, Hlu. repeat split; reflexivity.
Qed.

(** *** What the composers write *)

Lemma preflightResponse_elem (cors : Cors) (r : Request) (key value : string) :
  HeaderSet key value ∈ preflightResponse cors r ->
  (key = "Access-Control-Allow-Origin" /\ value = originOf r)
  \/ (key = "Access-Control-Allow-Methods" /\ value = ToUpper (reqMethodOf r))
  \/ (key = "Access-Control-Allow-Headers" /\
      value = Join (reqHeadersOf r) ", " /\ reqHeadersOf r <> [])
  \/ (key = "Access-Control-Allow-Credentials" /\ value = "true" /\
      cors.(options).(AllowCredentials) = true)
  \/ (key = "Access-Control-Max-Age" /\
      value = Itoa cors.(options).(MaxAge) /\ (0 < cors.(options).(MaxAge))%Z).
Proof.
  unfold preflightResponse. rewrite !elem_of_app, !elem_of_cons.
  repeat case_decide; destruct (AllowCredentials _);
    rewrite ?elem_of_cons, ?elem_of_nil; prune; intuition congruence.
Qed.

Lemma actualResponse_elem (cors : Cors) (r : Request) (key value : string) :
  HeaderSet key value ∈ actualResponse cors r ->
  (key = "Access-Control-Allow-Origin" /\ value = originOf r)
  \/ (key = "Access-Control-Expose-Headers" /\
      value = Join cors.(options).(ExposedHeaders) ", " /\
      cors.(options).(ExposedHeaders) <> [])
  \/ (key = "Access-Control-Allow-Credentials" /\ value = "true" /\
      cors.(options).(AllowCredentials) = true).
Proof.
  unfold actualResponse. rewrite !elem_of_app, !elem_of_cons.
  repeat case_decide; destruct (AllowCredentials _);
    rewrite ?elem_of_cons, ?elem_of_nil; prune; intuition congruence.
Qed.

Lemma handlePreflight_elem (cors : Cors) (r : Request) (e : Effect) :
  e ∈ handlePreflight cors r ->
  preflightPasses cors r /\ e ∈ preflightResponse cors r.
Proof.
  intros He. destruct (preflightPasses_dec cors r) as [Hp | Hn].
  - rewrite handlePreflight_pass in He by exact Hp. auto.
  - rewrite handlePreflight_fail in He by exact Hn. inversion He.
Qed.

Lemma handleActualRequest_elem (cors : Cors) (r : Request) (e : Effect) :
  e ∈ handleActualRequest cors r ->
  actualPasses cors r /\ e ∈ actualResponse cors r.
Proof.
  intros He. destruct (actualPasses_dec cors r) as [Hp | Hn].
  - rewrite handleActualRequest_pass in He by exact Hp. auto.
  - rewrite handleActualRequest_fail in He by exact Hn. inversion He.
Qed.

(** X8: a preflight response discloses nothing outside the policy: the
    method echoed in Allow-Methods is "OPTIONS" or an entry of the
    allowed-method list, and the value of Allow-Headers is the ", "-join of
    a non-empty token list whose tokens are all entries of the
    allowed-header list. *)
Theorem preflight_echo_admitted (cors : Cors) (r : Request) (value : string) :
  (HeaderSet "Access-Control-Allow-Methods" value ∈ handlePreflight cors r ->
   value = ToUpper (reqMethodOf r) /\
   (value = "OPTIONS" \/ value ∈ cors.(options).(AllowedMethods)))
  /\ (HeaderSet "Access-Control-Allow-Headers" value ∈ handlePreflight cors r ->
      value = Join (reqHeadersOf r) ", " /\ reqHeadersOf r <> [] /\
      forall token, token ∈ reqHeadersOf r ->
                    token ∈ cors.(options).(AllowedHeaders)).
Proof.
  split; intros Hin; apply handlePreflight_elem in Hin;
    destruct Hin as [(_ & _ & _ & Hme & Hh) Hin];
    apply preflightResponse_elem in Hin;
    destruct Hin as [[Hk Hv] | [[Hk Hv] | [(Hk & Hv & Hx) | [(Hk & _) | (Hk & _)]]]];
    try discriminate Hk.
  - split; [exact Hv |]. apply isMethodAllowed_true in Hme.
    rewrite Hv. destruct Hme as [_ Hme]. exact Hme.
  - split; [exact Hv |]. split; [exact Hx |].
    apply areHeadersAllowed_true. exact Hh.
Qed.

(** X9: the value written to [Access-Control-Max-Age] is a decimal numeral
    that reads back as the policy's [MaxAge], which is then positive. *)
Theorem max_age_reads_back (cors : Cors) (r : Request) (value : string) :
  HeaderSet "Access-Control-Max-Age" value ∈ handlePreflight cors r ->
  readDecimal value = Some cors.(options).(MaxAge) /\
  (0 < cors.(options).(MaxAge))%Z.
Proof.
  intros Hin. apply handlePreflight_elem in Hin. destruct Hin as [_ Hin].
  apply preflightResponse_elem in Hin.
  destruct Hin as [[Hk _] | [[Hk _] | [(Hk & _) | [(Hk & _) | (_ & Hv & Hpos)]]]];
    try discriminate Hk.
  split; [| exact Hpos]. rewrite Hv. apply Itoa_decimal.
Qed.

(** X10: with "*" in the allowed-origin list the origin matcher admits every
    string, the empty one included; it is the composers that reject an
    empty origin, so even then a request without [Origin] gets no header. *)
Theorem wildcard_admits_all (cors : Cors) (r : Request) (origin : string) :
  "*" ∈ cors.(options).(AllowedOrigins) ->
  isOriginAllowed cors origin = true
  /\ isOriginAllowed cors "" = true
  /\ (originOf r = "" -> HandlerFunc cors r = []).
Proof.
  intros Hstar. split; [| split].
  - apply isOriginAllowed_true. left. exact Hstar.
  - apply isOriginAllowed_true. left. exact Hstar.
  - intros He. unfold HandlerFunc. destruct (Method r =? "OPTIONS").
    + apply handlePreflight_fail. intros (_ & Ho & _). contradiction.
    + apply handleActualRequest_fail. intros (_ & Ho & _). contradiction.
Qed.

(** X11: the header matcher distributes over concatenation: a token list is
    allowed exactly when its parts are, so neither the order nor the
    repetition of requested headers matters. *)
Theorem areHeadersAllowed_app (cors : Cors) (hs1 hs2 : list string) :
  areHeadersAllowed cors (hs1 ++ hs2)%list =
  areHeadersAllowed cors hs1 && areHeadersAllowed cors hs2.
Proof.
  apply eq_true_iff_eq. rewrite andb_true_iff, !areHeadersAllowed_true.
  split.
  - intros H. split; intros header Hin; apply H, elem_of_app; auto.
  - intros [H1 H2] header Hin. apply elem_of_app in Hin.
    destruct Hin as [Hin | Hin]; auto.
Qed.

(** X12: widening the allow-lists of a policy never takes a CORS response
    away: every origin, method and header list that the narrower policy
    admits is admitted by the wider one, and a request for which the
    narrower policy writes headers gets headers from the wider one. *)
Theorem wider_policy_admits_more (cors cors' : Cors) (r : Request) :
  cors.(options).(AllowedOrigins) ⊆ cors'.(options).(AllowedOrigins) ->
  cors.(options).(AllowedMethods) ⊆ cors'.(options).(AllowedMethods) ->
  cors.(options).(AllowedHeaders) ⊆ cors'.(options).(AllowedHeaders) ->
  (forall origin, isOriginAllowed cors origin = true ->
                  isOriginAllowed cors' origin = true)
  /\ (forall method, isMethodAllowed cors method = true ->
                     isMethodAllowed cors' method = true)
  /\ (forall headers, areHeadersAllowed cors headers = true ->
                      areHeadersAllowed cors' headers = true)
  /\ (handlePreflight cors r <> [] -> handlePreflight cors' r <> [])
  /\ (handleActualRequest cors r <> [] -> handleActualRequest cors' r <> []).
Proof.
  intros Ho Hm Hh.
  assert (Horigin : forall origin, isOriginAllowed cors origin = true ->
                                   isOriginAllowed cors' origin = true).
  { intros origin. rewrite !isOriginAllowed_true.
    intros [H | H]; [left | right]; apply Ho; exact H. }
  assert (Hmethod : forall method, isMethodAllowed cors method = true ->
                                   isMethodAllowed cors' method = true).
  { intros method. rewrite !isMethodAllowed_true. intros [Hne Hin]. split.
    - destruct (AllowedMethods (options cors)) as [|a rest] eqn:Hl; [congruence |].
      intros He. assert (Ha : a ∈ AllowedMethods (options cors')).
      { apply Hm. left. }
      rewrite He in Ha. inversion Ha.
    - destruct Hin as [H | H]; [left; exact H | right; apply Hm; exact H]. }
  assert (Hheaders : forall headers, areHeadersAllowed cors headers = true ->
                                     areHeadersAllowed cors' headers = true).
  { intros headers. rewrite !areHeadersAllowed_true.
    intros H header Hin. apply Hh, H, Hin. }
  split; [exact Horigin |]. split; [exact Hmethod |]. split; [exact Hheaders |].
  rewrite !handlePreflight_nonempty, !handleActualRequest_nonempty.
  unfold preflightPasses, actualPasses. split.
  - intros (H1 & H2 & H3 & H4 & H5). auto 10.
  - intros (H1 & H2 & H3 & H4). auto 10.
Qed.

(** *** Policies built by [New] *)

Lemma New_options (o : Options) :
  (New o).(options) =
    {| AllowedOrigins :=
         match o.(AllowedOrigins) with
         | [] => ["*"]
         | _ => map ToLower o.(AllowedOrigins)
         end;
       AllowedMethods :=
         match o.(AllowedMethods) with
         | [] => ["GET"; "POST"]
         | _ => map ToUpper o.(AllowedMethods)
         end;
       AllowedHeaders := (map toHeader o.(AllowedHeaders) ++ [toHeader "Origin"])%list;
       ExposedHeaders := map toHeader o.(ExposedHeaders);
       AllowCredentials := o.(AllowCredentials);
       MaxAge := o.(MaxAge) |}.
Proof.
  destruct o as [origins methods headers exposed credentials age].
  unfold New, convert. cbn [AllowedOrigins AllowedMethods AllowedHeaders
    ExposedHeaders AllowCredentials MaxAge options].
  rewrite map_app.
  destruct origins, methods; reflexivity.
Qed.

Lemma elem_of_map_iff (f : string -> string) (l : list string) (y : string) :
  y ∈ map f l <-> exists x, x ∈ l /\ f x = y.
Proof.
  rewrite list_elem_of_In, in_map_iff. split; intros (x & H1 & H2); exists x.
  - apply list_elem_of_In in H2. auto.
  - apply list_elem_of_In in H1. auto.
Qed.

(** X13: for a policy built by [New] the origin matcher admits an origin
    exactly when the caller gave no origin at all (the default "*"), or some
    given origin lowercases to "*" or to the lowercased request origin; so a
    listed origin matches whatever the case it was written in.  ([convert]
    is the element-wise map.) *)
Theorem New_origin_matching (o : Options) (origin : string) :
  (isOriginAllowed (New o) origin = true <->
   o.(AllowedOrigins) = [] \/
   exists a, a ∈ o.(AllowedOrigins) /\
             (ToLower a = "*" \/ ToLower a = ToLower origin))
  /\ (origin ∈ o.(AllowedOrigins) -> isOriginAllowed (New o) origin = true).
Proof.
  assert (Hiff : isOriginAllowed (New o) origin = true <->
    o.(AllowedOrigins) = [] \/
    exists a, a ∈ o.(AllowedOrigins) /\
              (ToLower a = "*" \/ ToLower a = ToLower origin)).
  { rewrite isOriginAllowed_true, New_options.
    cbn [AllowedOrigins options].
    destruct (AllowedOrigins o) as [|a0 rest] eqn:Hl.
    - split; [intros _; left; reflexivity | intros _; left; left].
    - rewrite !elem_of_map_iff. split.
      + intros [(a & Ha & He) | (a & Ha & He)]; right; exists a; auto.
      + intros [H | (a & Ha & [He | He])]; [discriminate | left | right];
          exists a; auto. }
  split; [exact Hiff |].
  intros Hin. apply Hiff. right. exists origin. auto.
Qed.

(** X14: for a policy built by [New] the method matcher admits a method
    exactly when it uppercases to "OPTIONS", or the caller gave no method
    and it uppercases to "GET" or "POST", or it uppercases like some given
    method.  In particular "OPTIONS" is always admitted: the empty-list
    refusal of [isMethodAllowed] cannot be reached through [New]. *)
Theorem New_method_matching (o : Options) (method : string) :
  (isMethodAllowed (New o) method = true <->
   ToUpper method = "OPTIONS" \/
   (o.(AllowedMethods) = [] /\ (ToUpper method = "GET" \/ ToUpper method = "POST")) \/
   exists a, a ∈ o.(AllowedMethods) /\ ToUpper a = ToUpper method)
  /\ isMethodAllowed (New o) "OPTIONS" = true
  /\ (New o).(options).(AllowedMethods) <> [].
Proof.
  assert (Hne : (New o).(options).(AllowedMethods) <> []).
  { rewrite New_options. cbn [AllowedMethods options].
    destruct (AllowedMethods o); discriminate. }
  split; [| split; [| exact Hne]].
  - rewrite isMethodAllowed_true. revert Hne. rewrite New_options.
    cbn [AllowedMethods options].
    destruct (AllowedMethods o) as [|a0 rest] eqn:Hl; intros Hne.
    + rewrite !elem_of_cons, elem_of_nil. split.
      * intros [_ [H | [H | [H | []]]]]; auto.
      * intros [H | [[_ [H | H]] | (a & Ha & _)]]; [auto | auto | auto |].
        inversion Ha.
    + rewrite elem_of_map_iff. split.
      * intros [_ [H | (a & Ha & He)]]; [auto |]. right. right. exists a. auto.
      * intros [H | [[H _] | (a & Ha & He)]]; [auto | discriminate |].
        split; [exact Hne |]. right. exists a. auto.
  - apply isMethodAllowed_true. split; [exact Hne | left; reflexivity].
Qed.

(** X15: for a policy built by [New] the header matcher admits a token list
    exactly when every token is the canonical form of a header the caller
    listed or of "Origin"; the canonical "Origin" alone is always admitted,
    also when the caller listed no header. *)
Theorem New_header_matching (o : Options) (requestedHeaders : list string) :
  (areHeadersAllowed (New o) requestedHeaders = true <->
   forall header, header ∈ requestedHeaders ->
     header = toHeader "Origin" \/
     exists a, a ∈ o.(AllowedHeaders) /\ header = toHeader a)
  /\ areHeadersAllowed (New o) [toHeader "Origin"] = true.
Proof.
  assert (Hin : forall header,
    header ∈ (New o).(options).(AllowedHeaders) <->
    header = toHeader "Origin" \/
    exists a, a ∈ o.(AllowedHeaders) /\ header = toHeader a).
  { intros header. rewrite New_options. cbn [AllowedHeaders options].
    rewrite elem_of_app, elem_of_map_iff, elem_of_cons, elem_of_nil. split.
    - intros [(a & Ha & He) | [H | []]]; [right; exists a | left]; auto.
    - intros [H | (a & Ha & He)]; [right; left; exact H | left; exists a; auto]. }
  split.
  - rewrite areHeadersAllowed_true. split.
    + intros H header Hh. apply Hin, H, Hh.
    + intros H header Hh. apply Hin, H, Hh.
  - apply areHeadersAllowed_true. intros header Hh.
    apply elem_of_cons in Hh. destruct Hh as [-> | Hh]; [| inversion Hh].
    apply Hin. left. reflexivity.
Qed.


(** X17: a request whose method is a case variant of "OPTIONS" (such as
    "options") is an actual request, and the method matcher admits it
    whatever the non-empty allowed-method list holds: with an admitted
    origin it gets Allow-Origin and the wrapped handler runs. *)
Theorem options_variant_is_actual (cors : Cors) (r : Request) :
  r.(Method) <> "OPTIONS" ->
  ToUpper r.(Method) = "OPTIONS" ->
  cors.(options).(AllowedMethods) <> [] ->
  originOf r <> "" ->
  isOriginAllowed cors (originOf r) = true ->
  Handler cors r = (actualResponse cors r ++ [ServeNext])%list
  /\ HeaderSet "Access-Control-Allow-Origin" (originOf r) ∈ Handler cors r.
Proof.
  intros Hm Hup Hne Ho Hor.
  destruct (Handler_actual cors r Hm) as (-> & _).
  assert (Hp : actualPasses cors r).
  { split; [exact Hm |]. split; [exact Ho |]. split; [exact Hor |].
    apply isMethodAllowed_true. split; [exact Hne | left; exact Hup]. }
  rewrite (handleActualRequest_pass cors r Hp). split; [reflexivity |].
  unfold actualResponse. cbn [app]. apply elem_of_cons. left. reflexivity.
Qed.

End Cors.

(** ** The claims on the sample policies and requests

    The Unicode paths of [ToLower] and [ToUpper] are not taken on these
    inputs; they are instantiated with the identity. *)

Lemma handlePreflight_emits_witness :
  handlePreflight id id Utils.parseHeaderList Scenario.fooPolicy Scenario.preflight =
    [HeaderSet "Access-Control-Allow-Origin" "foo.com";
     HeaderSet "Access-Control-Allow-Methods" "POST";
     HeaderSet "Access-Control-Allow-Headers" "X-Custom, Content-Type";
     HeaderSet "Access-Control-Allow-Credentials" "true";
     HeaderSet "Access-Control-Max-Age" "600"].
Proof.
  destruct (handlePreflight_emits id id Utils.parseHeaderList
              Scenario.fooPolicy Scenario.preflight) as [H _].
  - reflexivity.
  - vm_compute. discriminate.
  - vm_compute. reflexivity.
  - vm_compute. reflexivity.
  - vm_compute. reflexivity.
  - rewrite H. vm_compute. reflexivity.
Defined.

Lemma isMethodAllowed_iff_witness :
  isMethodAllowed id Scenario.fooPolicy "post" = true /\
  isMethodAllowed id Scenario.fooPolicy "delete" = false.
Proof.
  split.
  - apply (proj1 (isMethodAllowed_iff id Scenario.fooPolicy "post")).
    split; [discriminate |]. right. vm_compute. repeat constructor.
  - destruct (isMethodAllowed id Scenario.fooPolicy "delete") eqn:Hd; [| reflexivity].
    apply (proj1 (isMethodAllowed_iff id Scenario.fooPolicy "delete")) in Hd.
    destruct Hd as [_ [Hd | Hd]]; vm_compute in Hd; [discriminate |].
    inversion Hd as [| ? ? ? Hd1]; subst. inversion Hd1 as [| ? ? ? Hd2]; subst.
    inversion Hd2.
Defined.

Lemma origin_check_iff_witness :
  handleActualRequest id id Scenario.fooPolicy Scenario.get <> [] /\
  handlePreflight id id Utils.parseHeaderList Scenario.fooPolicy Scenario.preflightBar = [].
Proof.
  split.
  - apply (proj1 (proj2 (proj2
      (origin_check_iff id id Utils.parseHeaderList Scenario.fooPolicy Scenario.get)))).
    split; [vm_compute; discriminate |]. split; [| reflexivity].
    split; [vm_compute; discriminate |]. right. vm_compute. repeat constructor.
  - apply (proj1 (proj2 (proj2 (proj2
      (origin_check_iff id id Utils.parseHeaderList Scenario.fooPolicy
         Scenario.preflightBar))))).
    intros [_ [H | H]]; vm_compute in H;
      inversion H as [| ? ? ? H1]; subst; inversion H1.
Defined.

Lemma areHeadersAllowed_iff_witness :
  areHeadersAllowed Scenario.fooPolicy ["X-Custom"; "Content-Type"] = true /\
  areHeadersAllowed Scenario.fooPolicy ["X-Custom"; "content-type"] = false.
Proof.
  split.
  - apply (proj1 (areHeadersAllowed_iff Scenario.fooPolicy ["X-Custom"; "Content-Type"])).
    right. intros header Hin. vm_compute.
    inversion Hin as [| ? ? ? H1]; subst; [repeat constructor |].
    inversion H1 as [| ? ? ? H2]; subst; [repeat constructor | inversion H2].
  - apply (proj2 (areHeadersAllowed_iff Scenario.fooPolicy ["X-Custom"; "content-type"])
             "content-type").
    + repeat constructor.
    + vm_compute. intros H.
      inversion H as [| ? ? ? H1]; subst. inversion H1 as [| ? ? ? H2]; subst.
      inversion H2 as [| ? ? ? H3]; subst. inversion H3.
Defined.

Lemma preflight_never_serves_witness :
  (ServeNext ∉ Handler id id Utils.parseHeaderList Scenario.fooPolicy Scenario.preflight) /\
  Handler id id Utils.parseHeaderList Scenario.fooPolicy Scenario.preflightBar = [].
Proof.
  split.
  - apply (preflight_never_serves id id Utils.parseHeaderList
             Scenario.fooPolicy Scenario.preflight). reflexivity.
  - apply (preflight_never_serves id id Utils.parseHeaderList
             Scenario.fooPolicy Scenario.preflightBar); [reflexivity |].
    right. left. vm_compute. reflexivity.
Defined.

Lemma handleActualRequest_emits_witness :
  handleActualRequest id id Scenario.fooPolicy Scenario.get =
    [HeaderSet "Access-Control-Allow-Origin" "Foo.com";
     HeaderSet "Access-Control-Expose-Headers" "X-Total";
     HeaderSet "Access-Control-Allow-Credentials" "true"].
Proof.
  destruct (handleActualRequest_emits id id Scenario.fooPolicy Scenario.get) as [_ H].
  - vm_compute. discriminate.
  - destruct H as [H _].
    + vm_compute. discriminate.
    + vm_compute. reflexivity.
    + vm_compute. reflexivity.
    + rewrite H. vm_compute. reflexivity.
Defined.

Lemma actual_always_serves_witness :
  Handler id id Utils.parseHeaderList Scenario.defaultPolicy Scenario.delete = [ServeNext].
Proof.
  apply (actual_always_serves id id Utils.parseHeaderList
           Scenario.defaultPolicy Scenario.delete).
  - vm_compute. discriminate.
  - right. right. vm_compute. reflexivity.
Defined.

Lemma New_normalizes_witness :
  New id id Utils.toHeader Scenario.fooOptions = Scenario.fooPolicy /\
  Default id id Utils.toHeader = Scenario.defaultPolicy.
Proof.
  pose proof (New_normalizes id id Utils.toHeader Scenario.fooOptions)
    as (H1 & H2 & H3 & H4 & H5 & H6 & _).
  split; [| vm_compute; reflexivity].
  destruct (New id id Utils.toHeader Scenario.fooOptions) as [[ao am ah eh ac ma]].
  cbn [options AllowedOrigins AllowedMethods AllowedHeaders ExposedHeaders
       AllowCredentials MaxAge] in *.
  subst. vm_compute. reflexivity.
Defined.

Lemma options_always_preflight_witness :
  isMethodAllowed id Scenario.fooPolicy "OPTIONS" = true /\
  handleActualRequest id id Scenario.fooPolicy Scenario.preflight = [].
Proof.
  destruct (options_always_preflight id id Utils.parseHeaderList
              Scenario.fooPolicy Scenario.preflight) as (H1 & _ & _ & _ & _ & H2 & _).
  - vm_compute. discriminate.
  - vm_compute. intros H.
    inversion H as [| ? ? ? H1]; subst. inversion H1 as [| ? ? ? H2]; subst.
    inversion H2.
  - reflexivity.
  - split; [exact H1 | exact H2].
Defined.

Lemma conditional_headers_gated_witness :
  HeaderSet "Access-Control-Allow-Origin" "foo.com" ∈
    Handler id id Utils.parseHeaderList Scenario.fooPolicy Scenario.preflight.
Proof.
  apply (conditional_headers_gated id id Utils.parseHeaderList
           Scenario.fooPolicy Scenario.preflight
           (Handler id id Utils.parseHeaderList Scenario.fooPolicy Scenario.preflight)
           "Access-Control-Max-Age").
  - repeat constructor.
  - repeat constructor.
  - exists "600". vm_compute. repeat constructor.
Defined.

(** ** The further properties on sample inputs *)

Lemma other_headers_untouched_witness :
  run id (HandlerFunc id id Utils.parseHeaderList Scenario.fooPolicy Scenario.preflight)
      {["Content-Type" := ["text/html"]]} !! "Content-Type" =
  ({["Content-Type" := ["text/html"]]} : http_Header) !! "Content-Type".
Proof.
  apply (other_headers_untouched id id Utils.parseHeaderList
           Scenario.fooPolicy Scenario.preflight id).
  unfold corsHeaders, conditionalHeaders.
  rewrite !not_elem_of_cons. repeat split; try discriminate.
  apply not_elem_of_nil.
Defined.

Lemma empty_list_locks_down_witness :
  HandlerFunc id id Utils.parseHeaderList
    {| options := {| AllowedOrigins := ["*"]; AllowedMethods := [];
                     AllowedHeaders := ["Origin"]; ExposedHeaders := [];
                     AllowCredentials := false; MaxAge := 0 |} |}
    Scenario.preflight = [].
Proof.
  apply (empty_list_locks_down id id Utils.parseHeaderList).
  left. reflexivity.
Defined.

Lemma preflight_without_method_witness :
  handlePreflight id id Utils.parseHeaderList Scenario.fooPolicy
    (Scenario.request "OPTIONS" [("Origin", "foo.com")]) = [].
Proof.
  apply (preflight_without_method id id Utils.parseHeaderList Scenario.fooPolicy
           (Scenario.request "OPTIONS" [("Origin", "foo.com")])).
  - left. vm_compute. reflexivity.
  - vm_compute. intros H.
    inversion H as [| ? ? ? H1]; subst. inversion H1 as [| ? ? ? H2]; subst.
    inversion H2.
Defined.

Lemma matchers_ignore_case_witness :
  isMethodAllowed id Scenario.fooPolicy (ToLower id "Post") =
  isMethodAllowed id Scenario.fooPolicy "Post".
Proof.
  apply (matchers_ignore_case id id Scenario.fooPolicy "Post"). reflexivity.
Defined.

Lemma max_age_reads_back_witness :
  readDecimal "600" = Some (MaxAge (options Scenario.fooPolicy)).
Proof.
  apply (max_age_reads_back id id Utils.parseHeaderList
           Scenario.fooPolicy Scenario.preflight "600").
  vm_compute. repeat constructor.
Defined.

Lemma wildcard_admits_all_witness :
  isOriginAllowed id Scenario.defaultPolicy "https://Example.org" = true /\
  HandlerFunc id id Utils.parseHeaderList Scenario.defaultPolicy
    (Scenario.request "GET" []) = [].
Proof.
  destruct (wildcard_admits_all id id Utils.parseHeaderList Scenario.defaultPolicy
              (Scenario.request "GET" []) "https://Example.org") as (H1 & _ & H2).
  - repeat constructor.
  - split; [exact H1 | apply H2; vm_compute; reflexivity].
Defined.

Lemma wider_policy_admits_more_witness :
  handleActualRequest id id
    {| options := {| AllowedOrigins := ["bar.com"; "foo.com"];
                     AllowedMethods := ["GET"; "POST"; "DELETE"];
                     AllowedHeaders := ["X-Custom"; "Content-Type"; "Origin"];
                     ExposedHeaders := []; AllowCredentials := false;
                     MaxAge := 0 |} |}
    Scenario.get <> [].
Proof.
  apply (wider_policy_admits_more id id Utils.parseHeaderList Scenario.fooPolicy).
  - intros x. cbn [Scenario.fooPolicy options AllowedOrigins].
    rewrite !elem_of_cons, elem_of_nil. tauto.
  - intros x. cbn [Scenario.fooPolicy options AllowedMethods].
    rewrite !elem_of_cons, elem_of_nil. tauto.
  - intros x. cbn [Scenario.fooPolicy options AllowedHeaders].
    rewrite !elem_of_cons, elem_of_nil. tauto.
  - vm_compute. discriminate.
Defined.

Lemma options_variant_is_actual_witness :
  HeaderSet "Access-Control-Allow-Origin" "foo.com" ∈
    Handler id id Utils.parseHeaderList Scenario.fooPolicy
      (Scenario.request "options" [("Origin", "foo.com")]).
Proof.
  apply (options_variant_is_actual id id Utils.parseHeaderList Scenario.fooPolicy
           (Scenario.request "options" [("Origin", "foo.com")])).
  - discriminate.
  - reflexivity.
  - discriminate.
  - vm_compute. discriminate.
  - vm_compute. reflexivity.
Defined.
